(** * snippetbox: the HTTP request logger (cmd/web/logger.go)

    A shallow embedding of [ResponseRecorder] and [HttpLogger] together
    with the parts of the Go runtime, net/http, time and zerolog that the
    two touch, and the properties the specification states about them.

    Layout:
    - [Go]: panics and the handler-owned heap (byte buffers, header maps);
    - [http], [time], [zerolog]: the library surface used by logger.go;
    - handlers as trees of calls on the writer they are given, and their
      interpreter [serve];
    - logger.go itself: [ResponseRecorder], its three methods, [HttpLogger];
    - a writer in the manner of net/http/httptest, used for concrete runs;
    - the mock user model, main with openDB, and the route table;
    - the properties. *)

From Stdlib Require Import ZArith Lia.
From Stdlib.Strings Require Import Byte Ascii.
From stdpp Require Import base list strings gmap.

Local Open Scope string_scope.
Local Open Scope list_scope.
Local Open Scope stdpp_scope.
Local Open Scope Z_scope.

(** ** The Go runtime *)

Module Go.

(** A Go call either returns or unwinds with a panic value; logger.go
    only ever panics with a string. *)
Inductive result (A : Type) : Type :=
| Returned (a : A)
| Panicked (v : string).
Arguments Returned {A} a.
Arguments Panicked {A} v.

(** A [[]byte] value is nil or a window into a backing array; two
    slices over the same array see each other's stores. *)
Inductive byteslice : Type :=
| nil_slice
| slice (buf off len : nat).

(** The heap a handler works with: backing arrays of byte slices and
    the header maps handed out by writers, both addressed by index. *)
Record Heap : Type := mkHeap {
  bufs : list (list byte);
  hdrs : list (gmap string (list string))
}.

(** The bytes a slice holds at the moment it is read. *)
Definition read (hp : Heap) (s : byteslice) : list byte :=
  match s with
  | nil_slice => []
  | slice b o n => take n (drop o (default [] (bufs hp !! b)))
  end.

(** [make] + copy: a fresh backing array holding [bs]. *)
Definition alloc (bs : list byte) (hp : Heap) : nat * Heap :=
  (length (bufs hp), mkHeap (bufs hp ++ [bs]) (hdrs hp)).

(** [buf[i] = v]; out of range is a run-time panic. *)
Definition store (b i : nat) (v : byte) (hp : Heap) : option Heap :=
  match bufs hp !! b with
  | Some a =>
      if decide (i < length a)%nat
      then Some (mkHeap (<[b := <[i := v]> a]> (bufs hp)) (hdrs hp))
      else None
  | None => None
  end.

(** In-place update of a header map through its reference. *)
Definition update_hdr (h : nat) (f : gmap string (list string) → gmap string (list string))
    (hp : Heap) : option Heap :=
  match hdrs hp !! h with
  | Some m => Some (mkHeap (bufs hp) (<[h := f m]> (hdrs hp)))
  | None => None
  end.

(** int64 wrap-around of a mathematical integer. *)
Definition int64 (z : Z) : Z := (z + 2 ^ 63) mod 2 ^ 64 - 2 ^ 63.

End Go.

Export Go.

(** ** net/http *)

Module http.

Definition StatusOK : Z := 200.

(** The request fields the logger reads. *)
Record Request : Type := mkRequest {
  Method : string;
  RequestURI : string
}.

(** The interfaces a response writer may implement on top of
    [http.ResponseWriter]; each has a method beyond its three. *)
Inductive optional : Type :=
| Flusher
| Hijacker
| Pusher
| ReaderFrom
| CloseNotifier.

(** The [http.ResponseWriter] interface over an implementation state
    [T].  [Header] returns a reference to the writer's header map;
    [Write] receives the slice (and the heap it points into) and returns
    Go's [(int, error)] pair, the error as its message.  [rw_implements]
    is the answer of a type assertion on the writer: whether its dynamic
    type has the methods of an optional interface as well. *)
Class ResponseWriter (T : Type) : Type := {
  rw_Header : T → result nat * T;
  rw_WriteHeader : Z → T → result unit * T;
  rw_Write : byteslice → Heap → T → result (Z * option string) * T;
  rw_implements : optional → T → bool
}.

(** [http.StatusText]: the reason phrase of a status code, the empty
    string for a code it does not know. *)
Definition StatusText (code : Z) : string :=
  match code with
  | 100 => "Continue"
  | 101 => "Switching Protocols"
  | 102 => "Processing"
  | 103 => "Early Hints"
  | 200 => "OK"
  | 201 => "Created"
  | 202 => "Accepted"
  | 203 => "Non-Authoritative Information"
  | 204 => "No Content"
  | 205 => "Reset Content"
  | 206 => "Partial Content"
  | 207 => "Multi-Status"
  | 208 => "Already Reported"
  | 226 => "IM Used"
  | 300 => "Multiple Choices"
  | 301 => "Moved Permanently"
  | 302 => "Found"
  | 303 => "See Other"
  | 304 => "Not Modified"
  | 305 => "Use Proxy"
  | 307 => "Temporary Redirect"
  | 308 => "Permanent Redirect"
  | 400 => "Bad Request"
  | 401 => "Unauthorized"
  | 402 => "Payment Required"
  | 403 => "Forbidden"
  | 404 => "Not Found"
  | 405 => "Method Not Allowed"
  | 406 => "Not Acceptable"
  | 407 => "Proxy Authentication Required"
  | 408 => "Request Timeout"
  | 409 => "Conflict"
  | 410 => "Gone"
  | 411 => "Length Required"
  | 412 => "Precondition Failed"
  | 413 => "Request Entity Too Large"
  | 414 => "Request URI Too Long"
  | 415 => "Unsupported Media Type"
  | 416 => "Requested Range Not Satisfiable"
  | 417 => "Expectation Failed"
  | 418 => "I'm a teapot"
  | 421 => "Misdirected Request"
  | 422 => "Unprocessable Entity"
  | 423 => "Locked"
  | 424 => "Failed Dependency"
  | 425 => "Too Early"
  | 426 => "Upgrade Required"
  | 428 => "Precondition Required"
  | 429 => "Too Many Requests"
  | 431 => "Request Header Fields Too Large"
  | 451 => "Unavailable For Legal Reasons"
  | 500 => "Internal Server Error"
  | 501 => "Not Implemented"
  | 502 => "Bad Gateway"
  | 503 => "Service Unavailable"
  | 504 => "Gateway Timeout"
  | 505 => "HTTP Version Not Supported"
  | 506 => "Variant Also Negotiates"
  | 507 => "Insufficient Storage"
  | 508 => "Loop Detected"
  | 510 => "Not Extended"
  | 511 => "Network Authentication Required"
  | _ => ""
  end.

End http.

(** ** zerolog *)

Module zerolog.

Inductive Level : Type := InfoLevel | ErrorLevel.

Inductive Value : Type :=
| VStr (s : string)
| VInt (z : Z)
| VBytes (bs : list byte)
| VDur (d : Z).

(** An event under construction and, once [Msg] is called, the record
    written to the sink: the level, the fields in the order they were
    added, the message.  The global logger is taken at its default level,
    which lets info and error events through; the timestamp it adds on
    its own is left out.  A field holds the value as it was handed to
    the logger: the JSON text zerolog makes of it when it writes (a byte
    slice becomes a string, with escapes, and with U+FFFD in place of
    bytes that are not UTF-8) is not modelled. *)
Record Event : Type := mkEvent {
  level : Level;
  fields : list (string * Value);
  message : string
}.

Definition Info : Event := mkEvent InfoLevel [] "".
Definition Error : Event := mkEvent ErrorLevel [] "".

Definition add (k : string) (v : Value) (e : Event) : Event :=
  mkEvent (level e) (fields e ++ [(k, v)]) (message e).

Definition Str (k v : string) : Event → Event := add k (VStr v).
Definition Int (k : string) (z : Z) : Event → Event := add k (VInt z).
Definition Bytes (k : string) (bs : list byte) : Event → Event := add k (VBytes bs).
Definition Dur (k : string) (d : Z) : Event → Event := add k (VDur d).

(** [Msg] closes the event; the caller appends it to the sink. *)
Definition Msg (m : string) (e : Event) : Event :=
  mkEvent (level e) (fields e) m.

(** The value of the first field named [k]. *)
Definition field (k : string) (e : Event) : option Value :=
  (λ x, snd (snd x)) <$> list_find (λ kv, fst kv = k) (fields e).

Definition keys (e : Event) : list string := fst <$> fields e.

End zerolog.

(** ** The world a request is served in *)

(** The state around one request: the writer the handler was given, the
    heap, the monotonic clock (nanoseconds) and the process-wide log sink
    (oldest record first). *)
Record World (T : Type) : Type := mkWorld {
  writer : T;
  heap : Heap;
  now : Z;
  log : list zerolog.Event
}.
Arguments mkWorld {T} writer heap now log.
Arguments writer {T} w.
Arguments heap {T} w.
Arguments now {T} w.
Arguments log {T} w.

Definition with_writer {T U : Type} (u : U) (w : World T) : World U :=
  mkWorld u (heap w) (now w) (log w).

Definition with_heap {T : Type} (hp : Heap) (w : World T) : World T :=
  mkWorld (writer w) hp (now w) (log w).

Definition tick {T : Type} (d : N) (w : World T) : World T :=
  mkWorld (writer w) (heap w) (now w + Z.of_N d) (log w).

Definition emit {T : Type} (e : zerolog.Event) (w : World T) : World T :=
  mkWorld (writer w) (heap w) (now w) (log w ++ [e]).

(** ** time *)

Module time.

Definition maxDuration : Z := 2 ^ 63 - 1.
Definition minDuration : Z := - 2 ^ 63.

(** [subMono]: the difference of two monotonic clock readings (int64
    nanoseconds), saturating where the subtraction overflows. *)
Definition subMono (t u : Z) : Z :=
  let d := int64 (t - u) in
  if (d <? 0) && (u <? t) then maxDuration
  else if (0 <? d) && (t <? u) then minDuration
  else d.

(** [time.Now]: the monotonic reading. *)
Definition Now {T : Type} (w : World T) : Z := now w.

(** [time.Since(t)] is [time.Now().Sub(t)]. *)
Definition Since {T : Type} (t : Z) (w : World T) : Z := subMono (Now w) t.

End time.


(** ** Handlers *)

(** A handler body, as the tree of what it does with the writer it was
    given: calls of the three interface methods (the continuation takes
    what the call returned), work on its own buffers and on header maps it
    holds a reference to, time passing, and how it ends.  [Recover body k]
    runs [body] as a function with a deferred [recover()] and goes on
    with [k], given the value of the panic that was stopped, or nothing
    when [body] returned.  [TypeAssert i k] is the type assertion of the
    writer to the optional interface [i]; [k] is given whether it held.
    What a handler then calls through such an interface is not part of
    the tree. *)
Inductive prog : Type :=
| Done
| Panic (v : string)
| Sleep (d : N) (k : prog)
| NewBuf (bs : list byte) (k : nat → prog)
| Poke (b i : nat) (v : byte) (k : prog)
| HdrUpdate (h : nat) (f : gmap string (list string) → gmap string (list string)) (k : prog)
| HdrRead (h : nat) (k : gmap string (list string) → prog)
| CallHeader (k : nat → prog)
| CallWriteHeader (code : Z) (k : prog)
| CallWrite (p : byteslice) (k : Z → option string → prog)
| Recover (body : prog) (k : option string → prog)
| TypeAssert (i : http.optional) (k : bool → prog).

(** [http.Handler]: what [ServeHTTP] does for a request. *)
Definition Handler : Type := http.Request → prog.

(** The calls a handler made on its writer, in order; a [Write] is kept
    with the slice passed and the bytes it held at the call. *)
Inductive Call : Type :=
| CHeader
| CWriteHeader (code : Z)
| CWrite (p : byteslice) (bs : list byte).

Definition called {T : Type} (c : Call) (x : result unit * World T * list Call)
    : result unit * World T * list Call :=
  (x.1.1, x.1.2, c :: x.2).

(** What [recover()] returns in a deferred call. *)
Definition recovered (r : result unit) : option string :=
  match r with
  | Returned _ => None
  | Panicked v => Some v
  end.

(** [ServeHTTP(w, req)] for the body [p]: the way it ended, the world it
    left, and the calls it made on the writer. *)
Fixpoint serve {T : Type} `{!http.ResponseWriter T} (p : prog) (w : World T)
    : result unit * World T * list Call :=
  match p with
  | Done => (Returned tt, w, [])
  | Panic v => (Panicked v, w, [])
  | Sleep d k => serve k (tick d w)
  | NewBuf bs k =>
      let '(b, hp) := alloc bs (heap w) in serve (k b) (with_heap hp w)
  | Poke b i v k =>
      match store b i v (heap w) with
      | Some hp => serve k (with_heap hp w)
      | None => (Panicked "index out of range", w, [])
      end
  | HdrUpdate h f k =>
      match update_hdr h f (heap w) with
      | Some hp => serve k (with_heap hp w)
      | None => (Panicked "assignment to entry in nil map", w, [])
      end
  | HdrRead h k => serve (k (default ∅ (hdrs (heap w) !! h))) w
  | CallHeader k =>
      match http.rw_Header (writer w) with
      | (Returned h, t) => called CHeader (serve (k h) (with_writer t w))
      | (Panicked v, t) => (Panicked v, with_writer t w, [CHeader])
      end
  | CallWriteHeader code k =>
      match http.rw_WriteHeader code (writer w) with
      | (Returned _, t) => called (CWriteHeader code) (serve k (with_writer t w))
      | (Panicked v, t) => (Panicked v, with_writer t w, [CWriteHeader code])
      end
  | CallWrite p k =>
      let c := CWrite p (read (heap w) p) in
      match http.rw_Write p (heap w) (writer w) with
      | (Returned (n, err), t) => called c (serve (k n err) (with_writer t w))
      | (Panicked v, t) => (Panicked v, with_writer t w, [c])
      end
  | Recover body k =>
      let x := serve body w in
      let y := serve (k (recovered x.1.1)) x.1.2 in
      (y.1.1, y.1.2, x.2 ++ y.2)
  | TypeAssert i k => serve (k (http.rw_implements i (writer w))) w
  end.

(** ** cmd/web/logger.go *)

Record ResponseRecorder (W : Type) : Type := mkResponseRecorder {
  ResponseWriter : W;
  StatusCode : Z;
  body : byteslice
}.
Arguments mkResponseRecorder {W} ResponseWriter StatusCode body.
Arguments ResponseWriter {W} r.
Arguments StatusCode {W} r.
Arguments body {W} r.

Section Recorder.
Context {W : Type} `{!http.ResponseWriter W}.

(** [func (r *ResponseRecorder) Header() http.Header] *)
Definition ResponseRecorder_Header (r : ResponseRecorder W)
    : result nat * ResponseRecorder W :=
  (Panicked "implement me", r).

(** [func (r *ResponseRecorder) WriteHeader(statusCode int)] *)
Definition ResponseRecorder_WriteHeader (statusCode : Z) (r : ResponseRecorder W)
    : result unit * ResponseRecorder W :=
  let r := mkResponseRecorder (ResponseWriter r) statusCode (body r) in
  let '(res, u) := http.rw_WriteHeader statusCode (ResponseWriter r) in
  (res, mkResponseRecorder u (StatusCode r) (body r)).

(** [func (r *ResponseRecorder) Write(bytes []byte) (int, error)]: the
    slice itself is kept, not a copy of what it holds. *)
Definition ResponseRecorder_Write (bytes : byteslice) (hp : Heap) (r : ResponseRecorder W)
    : result (Z * option string) * ResponseRecorder W :=
  let r := mkResponseRecorder (ResponseWriter r) (StatusCode r) bytes in
  let '(res, u) := http.rw_Write bytes hp (ResponseWriter r) in
  (res, mkResponseRecorder u (StatusCode r) (body r)).

(** The recorder has the three methods above and no other, so every
    assertion to an optional interface fails on it. *)
#[global] Instance ResponseRecorder_ResponseWriter : http.ResponseWriter (ResponseRecorder W) := {
  http.rw_Header := ResponseRecorder_Header;
  http.rw_WriteHeader := ResponseRecorder_WriteHeader;
  http.rw_Write := ResponseRecorder_Write;
  http.rw_implements := λ _ _, false
}.

(** The recorder [HttpLogger] hands to the wrapped handler. *)
Definition new_recorder (res : W) : ResponseRecorder W :=
  mkResponseRecorder res http.StatusOK nil_slice.

(** The world the wrapped handler runs in: the same, with the recorder
    in the writer's place. *)
Definition wrap (w : World W) : World (ResponseRecorder W) :=
  with_writer (new_recorder (writer w)) w.

(** The world handed back to the caller: the underlying writer again. *)
Definition unwrap (w1 : World (ResponseRecorder W)) : World W :=
  with_writer (ResponseWriter (writer w1)) w1.

(** Lines 40 to 51: the event built once the handler is back, level
    and (for a status other than 200) the body first, then the six
    fields in the order of the chain. *)
Definition build_event (req : http.Request) (hp : Heap) (rec : ResponseRecorder W)
    (duration : Z) : zerolog.Event :=
  let logger :=
    if decide (StatusCode rec ≠ http.StatusOK)
    then zerolog.Bytes "body" (read hp (body rec)) zerolog.Error
    else zerolog.Info in
  zerolog.Msg "received a HTTP request"
    (zerolog.Dur "duration" duration
      (zerolog.Str "status_text" (http.StatusText (StatusCode rec))
        (zerolog.Int "status_code" (StatusCode rec)
          (zerolog.Str "path" (http.RequestURI req)
            (zerolog.Str "method" (http.Method req)
              (zerolog.Str "protocol" "http" logger)))))).

(** [func HttpLogger(handler http.Handler) http.Handler]: the returned
    handler, run for [req] in a world whose writer is [res].  A panic of
    the wrapped handler unwinds through it; nothing is deferred. *)
Definition HttpLogger (handler : Handler) (req : http.Request) (w : World W)
    : result unit * World W :=
  let startTime := time.Now w in
  match serve (handler req) (wrap w) with
  | (Returned _, w1, _) =>
      let rec := writer w1 in
      let duration := time.Since startTime w1 in
      (Returned tt,
       emit (build_event req (heap w1) rec duration) (unwrap w1))
  | (Panicked v, w1, _) => (Panicked v, unwrap w1)
  end.

End Recorder.

(** ** A concrete underlying writer *)

Module httptest.

(** A writer in the manner of net/http/httptest's recorder: the first
    [WriteHeader] fixes the status and later ones are ignored, a [Write]
    before any [WriteHeader] implies 200, written bytes are appended to
    the body, and a status outside 100..999 is refused with a panic.  Of
    the optional interfaces it has [Flusher]. *)
Record Recorder : Type := mkRecorder {
  Code : Z;
  HeaderMap : nat;
  Body : list byte;
  wroteHeader : bool
}.

Definition Header (rw : Recorder) : result nat * Recorder :=
  (Returned (HeaderMap rw), rw).

Definition WriteHeader (code : Z) (rw : Recorder) : result unit * Recorder :=
  if wroteHeader rw then (Returned tt, rw)
  else if (code <? 100) || (999 <? code)
       then (Panicked "invalid WriteHeader code", rw)
       else (Returned tt, mkRecorder code (HeaderMap rw) (Body rw) true).

Definition Write (p : byteslice) (hp : Heap) (rw : Recorder)
    : result (Z * option string) * Recorder :=
  let rw := if wroteHeader rw then rw
            else mkRecorder 200 (HeaderMap rw) (Body rw) true in
  let bs := read hp p in
  (Returned (Z.of_nat (length bs), None),
   mkRecorder (Code rw) (HeaderMap rw) (Body rw ++ bs) (wroteHeader rw)).

#[global] Instance Recorder_ResponseWriter : http.ResponseWriter Recorder := {
  http.rw_Header := Header;
  http.rw_WriteHeader := WriteHeader;
  http.rw_Write := Write;
  http.rw_implements := λ i _, match i with http.Flusher => true | _ => false end
}.

(** [httptest.NewRecorder()] with its header map at reference 0. *)
Definition NewRecorder : Recorder := mkRecorder 200 0 [] false.

(** A fresh world around a new recorder: one empty header map, no
    buffers, clock at [t0], empty log. *)
Definition world (t0 : Z) : World Recorder :=
  mkWorld NewRecorder (mkHeap [] [∅]) t0 [].

End httptest.

(** ** Sample handlers and requests *)

Definition bytes_of (s : string) : list byte := String.list_byte_of_string s.

Definition get_root : http.Request := http.mkRequest "GET" "/".

(** [w.WriteHeader(code); w.Write([]byte(text))] *)
Definition respond (code : Z) (text : string) : Handler := λ _,
  NewBuf (bytes_of text) (λ b,
    CallWriteHeader code (
      CallWrite (slice b 0 (length (bytes_of text))) (λ _ _, Done))).

(** [w.WriteHeader(code); w.Write([]byte(a)); w.Write([]byte(b))] *)
Definition respond_twice (code : Z) (a b : string) : Handler := λ _,
  NewBuf (bytes_of a) (λ ba,
    NewBuf (bytes_of b) (λ bb,
      CallWriteHeader code (
        CallWrite (slice ba 0 (length (bytes_of a))) (λ _ _,
          CallWrite (slice bb 0 (length (bytes_of b))) (λ _ _, Done))))).

(** [w.Write([]byte(text))], no status set. *)
Definition just_write (text : string) : Handler := λ _,
  NewBuf (bytes_of text) (λ b,
    CallWrite (slice b 0 (length (bytes_of text))) (λ _ _, Done)).

(** As [respond], after which the handler reuses its buffer:
    [buf[0] = v]. *)
Definition respond_then_reuse (code : Z) (text : string) (v : byte) : Handler := λ _,
  NewBuf (bytes_of text) (λ b,
    CallWriteHeader code (
      CallWrite (slice b 0 (length (bytes_of text))) (λ _ _,
        Poke b 0 v Done))).

(** [w.Header().Set(key, value); w.WriteHeader(code)] *)
Definition set_header (key value : string) (code : Z) : Handler := λ _,
  CallHeader (λ h,
    HdrUpdate h (λ m, <[key := [value]]> m) (
      CallWriteHeader code Done)).

(** [w.WriteHeader(a); w.WriteHeader(b)] *)
Definition set_twice (a b : Z) : Handler := λ _,
  CallWriteHeader a (CallWriteHeader b Done).

(** [time.Sleep(d); w.Write([]byte(text))] *)
Definition slow (d : N) (text : string) : Handler := λ req,
  Sleep d (just_write text req).

(** [panic(v)] after the status has been set. *)
Definition fail_after (code : Z) (v : string) : Handler := λ _,
  CallWriteHeader code (Panic v).

(** The run of a handler on the recorder around a fresh test writer. *)
Definition recorded_run (handler : Handler) (t0 : Z)
    : result unit * World (ResponseRecorder httptest.Recorder) * list Call :=
  serve (handler get_root) (wrap (httptest.world t0)).

(** ** What the recorder holds after a run *)

Definition is_WriteHeader (c : Call) : bool :=
  match c with CWriteHeader _ => true | _ => false end.

Definition is_Write (c : Call) : bool :=
  match c with CWrite _ _ => true | _ => false end.

Definition is_Header (c : Call) : bool :=
  match c with CHeader => true | _ => false end.

(** The argument of the last [WriteHeader] of a trace, [d] if there is
    none. *)
Definition last_status (d : Z) (tr : list Call) : Z :=
  foldl (λ acc c, match c with CWriteHeader code => code | _ => acc end) d tr.

(** The slice passed to the last [Write] of a trace, [d] if there is
    none, and the bytes that slice held when it was passed. *)
Definition last_written (d : byteslice) (tr : list Call) : byteslice :=
  foldl (λ acc c, match c with CWrite p _ => p | _ => acc end) d tr.

Definition last_bytes (tr : list Call) : list byte :=
  foldl (λ acc c, match c with CWrite _ bs => bs | _ => acc end) [] tr.

(** [waits d p]: every way through [p] that reaches its end passes a
    pause of at least [d]. *)
Inductive waits (d : N) : prog → Prop :=
| waits_here d' k : (d ≤ d')%N → waits d (Sleep d' k)
| waits_Sleep d' k : waits d k → waits d (Sleep d' k)
| waits_Panic v : waits d (Panic v)
| waits_NewBuf bs k : (∀ b, waits d (k b)) → waits d (NewBuf bs k)
| waits_Poke b i v k : waits d k → waits d (Poke b i v k)
| waits_HdrUpdate h f k : waits d k → waits d (HdrUpdate h f k)
| waits_HdrRead h k : (∀ m, waits d (k m)) → waits d (HdrRead h k)
| waits_CallHeader k : (∀ h, waits d (k h)) → waits d (CallHeader k)
| waits_CallWriteHeader code k : waits d k → waits d (CallWriteHeader code k)
| waits_CallWrite p k : (∀ n err, waits d (k n err)) → waits d (CallWrite p k).

(** ** internal/models/mocks: the user model used in tests *)

Module models.

(** The sentinel errors of package models that the mock returns; each is
    a distinct value. *)
Inductive error : Type :=
| ErrNoRecord
| ErrInvalidCredentials
| ErrDuplicateEmail.

(** [models.User], with the fields the mock fills in; [Created] is a
    clock reading. *)
Record User : Type := mkUser {
  ID : Z;
  Name : string;
  Email : string;
  Created : Z
}.

End models.

Module mocks.

(** [UserModel.Insert(name, email, password string) error] *)
Definition Insert (name email password : string) : option models.error :=
  if bool_decide (email = "dupe@example.com")
  then Some models.ErrDuplicateEmail
  else None.

(** [UserModel.Authenticate(email, password string) (int, error)] *)
Definition Authenticate (email password : string) : Z * option models.error :=
  if bool_decide (email = "alice@example.com") && bool_decide (password = "pa$$word")
  then (1, None)
  else (0, Some models.ErrInvalidCredentials).

(** [UserModel.Exists(id int) (bool, error)] *)
Definition Exists (id : Z) : bool * option models.error :=
  match id with
  | 1 => (true, None)
  | _ => (false, None)
  end.

(** [UserModel.Get(id int)], a user or an error; [t] is what
    [time.Now()] reads. *)
Definition Get (t : Z) (id : Z) : option models.User * option models.error :=
  if bool_decide (id = 1)
  then (Some (models.mkUser 1 "Alice" "alice@example.com" t), None)
  else (None, Some models.ErrNoRecord).

End mocks.

(** ** cmd/web/main.go *)

Module web.

Inductive stream : Type := Stdout | Stderr.

(** What the process does to the outside, in order. *)
Inductive effect : Type :=
| FlagParse
| SqlOpen (driverName dataSourceName : string)
| Ping (db : nat)
| Close (db : option nat)
| NewTemplateCache
| Print (out : stream) (prefix text : string)
| ListenAndServeTLS (addr certFile keyFile : string).

(** What [flag.Parse] finds on the command line: a value or nothing for
    each of the three flags, or a reason to leave (the flag set exits on
    error or on a request for help). *)
Inductive parsed : Type :=
| Flags (addr staticDir dsn : option string)
| Usage (code : Z).

(** The outside, as main meets it: the command line, the database
    driver, the template files and the listener, each with the answer it
    gives.  An error is its message. *)
Record Env : Type := mkEnv {
  flag_Parse : parsed;
  sql_Open : string → string → nat + string;
  db_Ping : nat → option string;
  newTemplateCache : option string;
  srv_ListenAndServeTLS : string → string → string → string
}.

(** A function body: the effects so far and the calls deferred so far
    (latest first); a step either goes on or leaves the process with
    [os.Exit], which runs no deferred call. *)
Record frame : Type := mkFrame {
  done_ : list effect;
  deferred : list effect
}.

Inductive step (A : Type) : Type :=
| Next (a : A)
| Stop (code : Z).
Arguments Next {A} a.
Arguments Stop {A} code.

Definition Proc (A : Type) : Type := frame → step A * frame.

Definition ret {A : Type} (a : A) : Proc A := λ s, (Next a, s).

Definition bind {A B : Type} (m : Proc A) (k : A → Proc B) : Proc B := λ s,
  match m s with
  | (Next a, s') => k a s'
  | (Stop code, s') => (Stop code, s')
  end.

#[global] Instance Proc_ret : MRet Proc := @ret.
#[global] Instance Proc_bind : MBind Proc := λ A B k m, bind m k.

Definition perform (e : effect) : Proc unit := λ s,
  (Next tt, mkFrame (done_ s ++ [e]) (deferred s)).

Definition defer (e : effect) : Proc unit := λ s,
  (Next tt, mkFrame (done_ s) (e :: deferred s)).

Definition os_Exit {A : Type} (code : Z) : Proc A := λ s, (Stop code, s).

(** [errorLog.Fatal(err)]: one line on the error logger, which main
    creates on os.Stdout with prefix ERROR, then [os.Exit(1)]. *)
Definition errorLog_Fatal {A : Type} (text : string) : Proc A :=
  perform (Print Stdout "ERROR" text);; os_Exit 1.

(** [infoLog.Printf]: main creates the info logger on os.Stderr. *)
Definition infoLog_Printf (text : string) : Proc unit :=
  perform (Print Stderr "INFO" text).

(** [func openDB(dsn string)], a handle or an error. *)
Definition openDB (env : Env) (dsn : string) : Proc (option nat * option string) :=
  perform (SqlOpen "mysql" dsn);;
  match sql_Open env "mysql" dsn with
  | inr err => mret (None, Some err)
  | inl db =>
      perform (Ping db);;
      match db_Ping env db with
      | Some err => mret (None, Some err)
      | None => mret (Some db, None)
      end
  end.

Record config : Type := mkConfig {
  addr : string;
  staticDir : string;
  dsn : string
}.

(** [func main()], the version with the database. *)
Definition main (env : Env) : Proc unit :=
  perform FlagParse;;
  match flag_Parse env with
  | Usage code => os_Exit code
  | Flags a s d =>
      let cfg := mkConfig (default ":4000" a) (default "./ui/static" s)
                          (default "web:pass@/snippetbox?parseTime=true" d) in
      r ← openDB env (dsn cfg);
      match r.2 with
      | Some err => errorLog_Fatal err
      | None =>
          defer (Close r.1);;
          perform NewTemplateCache;;
          match newTemplateCache env with
          | Some err => errorLog_Fatal err
          | None =>
              infoLog_Printf ("Starting server on " +:+ addr cfg);;
              perform (ListenAndServeTLS (addr cfg) "./tls/cert.pem" "./tls/key.pem");;
              errorLog_Fatal
                (srv_ListenAndServeTLS env (addr cfg) "./tls/cert.pem" "./tls/key.pem")
          end
      end
  end.

(** The process from start to end: the effects in order and the exit
    status.  A body that returns runs its deferred calls, latest first,
    and the process leaves with status 0. *)
Definition run (body : Proc unit) : list effect * Z :=
  match body (mkFrame [] []) with
  | (Next _, s) => (done_ s ++ deferred s, 0)
  | (Stop code, s) => (done_ s, code)
  end.

Definition is_Close (e : effect) : bool :=
  match e with Close _ => true | _ => false end.

Definition is_Listen (e : effect) : bool :=
  match e with ListenAndServeTLS _ _ _ => true | _ => false end.

End web.

(** ** cmd/web/routes.go *)

Module router.

(** The first segment of a path, up to the next slash, and the rest. *)
Fixpoint until_slash (s : string) : string * string :=
  match s with
  | EmptyString => (EmptyString, EmptyString)
  | String c s' =>
      if Ascii.eqb c "/"%char then (EmptyString, s)
      else (String c (until_slash s').1, (until_slash s').2)
  end.

Fixpoint has_slash (s : string) : bool :=
  match s with
  | EmptyString => false
  | String c s' => Ascii.eqb c "/"%char || has_slash s'
  end.

(** Where the matcher is in a pattern: in plain text, or in the name of a
    parameter whose value has been taken from the path already. *)
Inductive mode : Type :=
| Text
| Name (name value : string).

(** A pattern of the router against a path: plain text matches itself,
    [:name] matches one segment that is not empty and binds it.  No
    pattern of routes.go has a catch-all. *)
Fixpoint match_path (m : mode) (pat path : string) : option (list (string * string)) :=
  match m, pat with
  | Text, EmptyString =>
      match path with EmptyString => Some [] | _ => None end
  | Text, String c pat' =>
      if Ascii.eqb c ":"%char then
        if bool_decide ((until_slash path).1 = EmptyString) then None
        else match_path (Name EmptyString (until_slash path).1) pat' (until_slash path).2
      else
        match path with
        | String d path' => if Ascii.eqb c d then match_path Text pat' path' else None
        | EmptyString => None
        end
  | Name n v, EmptyString =>
      match path with EmptyString => Some [(n, v)] | _ => None end
  | Name n v, String c pat' =>
      if Ascii.eqb c "/"%char then
        match path with
        | String d path' =>
            if Ascii.eqb d "/"%char then cons (n, v) <$> match_path Text pat' path' else None
        | EmptyString => None
        end
      else match_path (Name (n +:+ String c EmptyString) v) pat' path
  end.

(** The handlers routes() registers. *)
Inductive target : Type :=
| fileServer_stripped
| home
| snippetView
| snippetCreate
| snippetCreatePost.

Definition MethodGet : string := "GET".
Definition MethodPost : string := "POST".

(** The registrations of routes(), in its order. *)
Definition table : list (string * string * target) :=
  [ (MethodGet, "/static/", fileServer_stripped);
    (MethodGet, "/", home);
    (MethodGet, "/snippet/view/:id", snippetView);
    (MethodGet, "/snippet/create", snippetCreate);
    (MethodPost, "/snippet/create", snippetCreatePost) ].

Fixpoint lookup (rs : list (string * string * target)) (method path : string)
    : option (target * list (string * string)) :=
  match rs with
  | [] => None
  | (m, pat, h) :: rs' =>
      if bool_decide (m = method) then
        match match_path Text pat path with
        | Some ps => Some (h, ps)
        | None => lookup rs' method path
        end
      else lookup rs' method path
  end.

(** [strings.TrimPrefix] *)
Fixpoint TrimPrefix_opt (prefix s : string) : option string :=
  match prefix with
  | EmptyString => Some s
  | String c prefix' =>
      match s with
      | String d s' => if Ascii.eqb c d then TrimPrefix_opt prefix' s' else None
      | EmptyString => None
      end
  end.

Definition TrimPrefix (s prefix : string) : string :=
  default s (TrimPrefix_opt prefix s).

(** Who answers a request that reached the router. *)
Inductive served : Type :=
| Handler_ (h : target) (params : list (string * string))
| FileServer (path : string)
| StripPrefixNotFound
| NotRouted.

(** [http.StripPrefix(prefix, h)] on the URL path: [h] gets the path
    without the prefix when that is shorter, and the request is answered
    404 otherwise. *)
Definition StripPrefix (prefix path : string) : served :=
  if bool_decide (prefix = "") then FileServer path
  else
    let p := TrimPrefix path prefix in
    if decide (String.length p < String.length path)%nat then FileServer p
    else StripPrefixNotFound.

(** The router routes() returns, before the middleware chain: the
    handler a method and URL path are given to.  [NotRouted] stands for
    every answer of the router itself (the NotFound handler, a redirect,
    405). *)
Definition routes (method path : string) : served :=
  match lookup table method path with
  | Some (fileServer_stripped, _) => StripPrefix "/static/*filepath" path
  | Some (h, ps) => Handler_ h ps
  | None => NotRouted
  end.

End router.

(** Whether a pattern has a parameter in it. *)
Fixpoint has_colon (s : string) : bool :=
  match s with
  | EmptyString => false
  | String c s' => Ascii.eqb c ":"%char || has_colon s'
  end.

(** Two outsides for main: one in which everything is ready and the
    listener later fails, one whose database does not answer. *)
Definition ready_env : web.Env :=
  web.mkEnv (web.Flags (Some ":8443") None None) (λ _ _, inl 7%nat) (λ _, None) None
            (λ _ _ _, "http: Server closed").

Definition unreachable_db_env : web.Env :=
  web.mkEnv (web.Flags None None None) (λ _ _, inl 7%nat)
            (λ _, Some "dial tcp: connection refused") None
            (λ _ _ _, "http: Server closed").

(** ** Further handler shapes *)

(** [no_Poke p]: the body never stores into a buffer. *)
Inductive no_Poke : prog → Prop :=
| no_Poke_Done : no_Poke Done
| no_Poke_Panic v : no_Poke (Panic v)
| no_Poke_Sleep d k : no_Poke k → no_Poke (Sleep d k)
| no_Poke_NewBuf bs k : (∀ b, no_Poke (k b)) → no_Poke (NewBuf bs k)
| no_Poke_HdrUpdate h f k : no_Poke k → no_Poke (HdrUpdate h f k)
| no_Poke_HdrRead h k : (∀ m, no_Poke (k m)) → no_Poke (HdrRead h k)
| no_Poke_CallHeader k : (∀ h, no_Poke (k h)) → no_Poke (CallHeader k)
| no_Poke_CallWriteHeader code k : no_Poke k → no_Poke (CallWriteHeader code k)
| no_Poke_CallWrite p k : (∀ n err, no_Poke (k n err)) → no_Poke (CallWrite p k)
| no_Poke_Recover body k :
    no_Poke body → (∀ v, no_Poke (k v)) → no_Poke (Recover body k)
| no_Poke_TypeAssert i k : (∀ ok, no_Poke (k ok)) → no_Poke (TypeAssert i k).

(** [no_TypeAssert p]: the body uses its writer through the three
    methods of [http.ResponseWriter] only. *)
Inductive no_TypeAssert : prog → Prop :=
| no_TypeAssert_Done : no_TypeAssert Done
| no_TypeAssert_Panic v : no_TypeAssert (Panic v)
| no_TypeAssert_Sleep d k : no_TypeAssert k → no_TypeAssert (Sleep d k)
| no_TypeAssert_NewBuf bs k : (∀ b, no_TypeAssert (k b)) → no_TypeAssert (NewBuf bs k)
| no_TypeAssert_Poke b i v k : no_TypeAssert k → no_TypeAssert (Poke b i v k)
| no_TypeAssert_HdrUpdate h f k : no_TypeAssert k → no_TypeAssert (HdrUpdate h f k)
| no_TypeAssert_HdrRead h k : (∀ m, no_TypeAssert (k m)) → no_TypeAssert (HdrRead h k)
| no_TypeAssert_CallHeader k : (∀ h, no_TypeAssert (k h)) → no_TypeAssert (CallHeader k)
| no_TypeAssert_CallWriteHeader code k :
    no_TypeAssert k → no_TypeAssert (CallWriteHeader code k)
| no_TypeAssert_CallWrite p k :
    (∀ n err, no_TypeAssert (k n err)) → no_TypeAssert (CallWrite p k)
| no_TypeAssert_Recover body k :
    no_TypeAssert body → (∀ v, no_TypeAssert (k v)) → no_TypeAssert (Recover body k).


(** A handler that guards itself: the body sets a header, and a deferred
    function turns any panic into a 500. *)
Definition guarded_set_header (key value : string) : Handler := λ _,
  Recover
    (CallHeader (λ h, HdrUpdate h (λ m, <[key := [value]]> m) (CallWriteHeader 200 Done)))
    (λ v, match v with
          | Some _ => CallWriteHeader 500 Done
          | None => Done
          end).

(** A handler that streams when it can: with a [Flusher] it answers 200,
    without one 501. *)
Definition needs_Flusher : Handler := λ _,
  TypeAssert http.Flusher (λ ok,
    if ok then CallWriteHeader 200 Done else CallWriteHeader 501 Done).

(** [w.Write(nil)] *)
Definition write_nil : Handler := λ _, CallWrite nil_slice (λ _ _, Done).

(** [w.WriteHeader(code)] and nothing else. *)
Definition status_only (code : Z) : Handler := λ _, CallWriteHeader code Done.

Lemma last_status_none tr : ∀ d,
  forallb (λ c, negb (is_WriteHeader c)) tr = true → last_status d tr = d.
Proof.
  induction tr as [|c tr IH]; intros d Hall; [done|].
  simpl in Hall. apply andb_prop in Hall as [Hc Htr].
  destruct c; try discriminate; simpl; by apply IH.
Qed.

Lemma last_status_only_Write tr d :
  forallb is_Write tr = true → last_status d tr = d.
Proof.
  intros Hall. apply last_status_none.
  rewrite forallb_forall in *. intros c Hc. specialize (Hall c Hc).
  by destruct c.
Qed.

Lemma last_status_last d pre code post :
  forallb (λ c, negb (is_WriteHeader c)) post = true →
  last_status d (pre ++ CWriteHeader code :: post) = code.
Proof.
  intros Hpost. unfold last_status. rewrite foldl_app. simpl.
  by apply last_status_none.
Qed.

Lemma last_written_none tr : ∀ d,
  forallb (λ c, negb (is_Write c)) tr = true → last_written d tr = d.
Proof.
  induction tr as [|c tr IH]; intros d Hall; [done|].
  simpl in Hall. apply andb_prop in Hall as [Hc Htr].
  destruct c; try discriminate; simpl; by apply IH.
Qed.

Lemma last_written_last d pre p bs post :
  forallb (λ c, negb (is_Write c)) post = true →
  last_written d (pre ++ CWrite p bs :: post) = p.
Proof.
  intros Hpost. unfold last_written. rewrite foldl_app. simpl.
  by apply last_written_none.
Qed.

(** A trace has no write, or a last one. *)
Lemma last_Write_split (tr : list Call) :
  forallb (λ c, negb (is_Write c)) tr = true
  ∨ ∃ pre p bs post,
      tr = pre ++ CWrite p bs :: post ∧ forallb (λ c, negb (is_Write c)) post = true.
Proof.
  induction tr as [|c tr IH] using rev_ind; [by left|].
  destruct c as [|code|p bs].
  - destruct IH as [Hnone|(pre & p & bs & post & -> & Hpost)].
    + left. by rewrite forallb_app, Hnone.
    + right. exists pre, p, bs, (post ++ [CHeader]).
      split; [by rewrite <- app_assoc|]. by rewrite forallb_app, Hpost.
  - destruct IH as [Hnone|(pre & p & bs & post & -> & Hpost)].
    + left. by rewrite forallb_app, Hnone.
    + right. exists pre, p, bs, (post ++ [CWriteHeader code]).
      split; [by rewrite <- app_assoc|]. by rewrite forallb_app, Hpost.
  - right. by exists tr, p, bs, [].
Qed.

Section RecorderFacts.
Context {W : Type} `{!http.ResponseWriter W}.

Implicit Types (w : World (ResponseRecorder W)) (k : prog).

(** One step of a handler on the recorder, in terms of the underlying
    writer's answer. *)
Lemma serve_rec_Header (k : nat → prog) w :
  serve (CallHeader k) w = (Panicked "implement me", w, [CHeader]).
Proof. by destruct w. Qed.

Lemma serve_rec_WriteHeader code k w :
  serve (CallWriteHeader code k) w =
    let r := mkResponseRecorder
               (http.rw_WriteHeader code (ResponseWriter (writer w))).2
               code (body (writer w)) in
    match (http.rw_WriteHeader code (ResponseWriter (writer w))).1 with
    | Returned _ => called (CWriteHeader code) (serve k (with_writer r w))
    | Panicked v => (Panicked v, with_writer r w, [CWriteHeader code])
    end.
Proof.
  cbn [serve http.rw_WriteHeader ResponseRecorder_ResponseWriter].
  unfold ResponseRecorder_WriteHeader; simpl.
  by destruct (http.rw_WriteHeader code (ResponseWriter (writer w))) as [[[]|v] u].
Qed.

Lemma serve_rec_Write s (k : Z → option string → prog) w :
  serve (CallWrite s k) w =
    let r := mkResponseRecorder
               (http.rw_Write s (heap w) (ResponseWriter (writer w))).2
               (StatusCode (writer w)) s in
    match (http.rw_Write s (heap w) (ResponseWriter (writer w))).1 with
    | Returned (n, err) =>
        called (CWrite s (read (heap w) s)) (serve (k n err) (with_writer r w))
    | Panicked v => (Panicked v, with_writer r w, [CWrite s (read (heap w) s)])
    end.
Proof.
  cbn [serve http.rw_Write ResponseRecorder_ResponseWriter].
  unfold ResponseRecorder_Write; simpl.
  by destruct (http.rw_Write s (heap w) (ResponseWriter (writer w))) as [[[n err]|v] u].
Qed.

(** The recorder's fields after a run: the argument of the last
    [WriteHeader] and the slice of the last [Write] the handler made,
    or what they were before if it made none. *)
Lemma serve_recorder (p : prog) : ∀ w,
  StatusCode (writer (serve p w).1.2) = last_status (StatusCode (writer w)) (serve p w).2
  ∧ body (writer (serve p w).1.2) = last_written (body (writer w)) (serve p w).2.
Proof.
  induction p as [|v|d k IH|bs k IH|b i v k IH|h f k IH|h k IH|k IH|code k IH|s k IH
                  |body IHb k IHk|i k IH];
    intros w.
  - done.
  - done.
  - exact (IH (tick d w)).
  - cbn [serve]. destruct (alloc bs (heap w)) as [b hp]. exact (IH b (with_heap hp w)).
  - cbn [serve]. destruct (store b i v (heap w)) as [hp|]; [exact (IH (with_heap hp w))|done].
  - cbn [serve]. destruct (update_hdr h f (heap w)) as [hp|]; [exact (IH (with_heap hp w))|done].
  - apply IH.
  - by rewrite serve_rec_Header.
  - rewrite serve_rec_WriteHeader; cbv zeta.
    destruct (http.rw_WriteHeader code _) as [[[]|v] u]; [|done].
    unfold called; cbn [fst snd].
    exact (IH (with_writer (mkResponseRecorder u code (body (writer w))) w)).
  - rewrite serve_rec_Write; cbv zeta.
    destruct (http.rw_Write s _ _) as [[[n err]|v] u]; [|done].
    unfold called; cbn [fst snd].
    exact (IH n err (with_writer (mkResponseRecorder u (StatusCode (writer w)) s) w)).
  - cbn [serve]; cbv zeta; cbn [fst snd].
    destruct (IHb w) as [Hst Hbd].
    destruct (IHk (recovered (serve body w).1.1) (serve body w).1.2) as [Hst' Hbd'].
    unfold last_status, last_written in *. rewrite !foldl_app.
    rewrite Hst', Hbd', Hst, Hbd. done.
  - exact (IH _ w).
Qed.

(** A run never writes to the log sink and never sets the clock back;
    this holds for any writer. *)
Lemma serve_log_clock {T : Type} `{!http.ResponseWriter T} (p : prog) : ∀ w : World T,
  log (serve p w).1.2 = log w ∧ now w ≤ now (serve p w).1.2.
Proof.
  induction p as [|v|d k IH|bs k IH|b i v k IH|h f k IH|h k IH|k IH|code k IH|s k IH
                  |body IHb k IHk|i k IH];
    intros w; cbn [serve].
  - split; [done|simpl; lia].
  - split; [done|simpl; lia].
  - destruct (IH (tick d w)) as [-> Hle]. split; [done|]. simpl in Hle. lia.
  - destruct (alloc bs (heap w)) as [b hp]. exact (IH b (with_heap hp w)).
  - destruct (store b i v (heap w)) as [hp|]; [exact (IH (with_heap hp w))|].
    split; [done|simpl; lia].
  - destruct (update_hdr h f (heap w)) as [hp|]; [exact (IH (with_heap hp w))|].
    split; [done|simpl; lia].
  - apply IH.
  - destruct (http.rw_Header (writer w)) as [[h|v] t]; [|split; [done|simpl; lia]].
    exact (IH h (with_writer t w)).
  - destruct (http.rw_WriteHeader code (writer w)) as [[[]|v] t]; [|split; [done|simpl; lia]].
    exact (IH (with_writer t w)).
  - destruct (http.rw_Write s (heap w) (writer w)) as [[[n err]|v] t];
      [|split; [done|simpl; lia]].
    exact (IH n err (with_writer t w)).
  - cbv zeta; cbn [fst snd].
    destruct (IHb w) as [Hlog Hclock].
    destruct (IHk (recovered (serve body w).1.1) (serve body w).1.2) as [Hlog' Hclock'].
    split; [by rewrite Hlog'|lia].
  - exact (IH _ w).
Qed.

(** A run that returns has spent at least the pause its body waits for. *)
Lemma serve_waits {T : Type} `{!http.ResponseWriter T} (d : N) (p : prog) :
  waits d p → ∀ w : World T,
  (serve p w).1.1 = Returned tt → now w + Z.of_N d ≤ now (serve p w).1.2.
Proof.
  induction 1 as [d' k Hd|d' k _ IH|v|bs k _ IH|b i v k _ IH|h f k _ IH|h k _ IH
                  |k _ IH|code k _ IH|s k _ IH]; intros w; cbn [serve].
  - intros _. destruct (serve_log_clock k (tick d' w)) as [_ Hle].
    simpl in Hle. lia.
  - intros Hret. specialize (IH (tick d' w) Hret). simpl in IH. lia.
  - discriminate.
  - destruct (alloc bs (heap w)) as [b hp]. exact (IH b (with_heap hp w)).
  - destruct (store b i v (heap w)) as [hp|]; [exact (IH (with_heap hp w))|discriminate].
  - destruct (update_hdr h f (heap w)) as [hp|]; [exact (IH (with_heap hp w))|discriminate].
  - apply IH.
  - destruct (http.rw_Header (writer w)) as [[h|v] t]; [|discriminate].
    exact (IH h (with_writer t w)).
  - destruct (http.rw_WriteHeader code (writer w)) as [[[]|v] t]; [|discriminate].
    exact (IH (with_writer t w)).
  - destruct (http.rw_Write s (heap w) (writer w)) as [[[n err]|v] t]; [|discriminate].
    exact (IH n err (with_writer t w)).
Qed.

(** Apart from [Header] and type assertions, the recorder is invisible:
    a run that never asks for the header map, of a body that uses the
    writer through the interface only, does to the underlying writer, the
    heap and the clock exactly what the same body does when given the
    underlying writer itself, ends the same way (a panic with the same
    value) and makes the same calls. *)
Lemma recorder_transparent (p : prog) : no_TypeAssert p → ∀ w,
  forallb (λ c, negb (is_Header c)) (serve p w).2 = true →
  serve p (unwrap w) = ((serve p w).1.1, unwrap (serve p w).1.2, (serve p w).2).
Proof.
  induction 1 as [|v|d k _ IH|bs k _ IH|b i v k _ IH|h f k _ IH|h k _ IH|k _ IH
                  |code k _ IH|s k _ IH|body k _ IHb _ IHk]; intros w.
  - done.
  - done.
  - exact (IH (tick d w)).
  - cbn [serve]. change (heap (unwrap w)) with (heap w).
    destruct (alloc bs (heap w)) as [b hp]. exact (IH b (with_heap hp w)).
  - cbn [serve]. change (heap (unwrap w)) with (heap w).
    destruct (store b i v (heap w)) as [hp|]; [exact (IH (with_heap hp w))|done].
  - cbn [serve]. change (heap (unwrap w)) with (heap w).
    destruct (update_hdr h f (heap w)) as [hp|]; [exact (IH (with_heap hp w))|done].
  - exact (IH _ w).
  - rewrite serve_rec_Header. discriminate.
  - rewrite serve_rec_WriteHeader; cbv zeta. cbn [serve].
    change (writer (unwrap w)) with (ResponseWriter (writer w)).
    destruct (http.rw_WriteHeader code (ResponseWriter (writer w))) as [[[]|v] u];
      cbn [fst snd]; [|done].
    unfold called; cbn [fst snd]. intros Hnh.
    pose proof (IH (with_writer (mkResponseRecorder u code (body (writer w))) w) Hnh) as E.
    unfold unwrap, with_writer in *; cbn [writer heap now log ResponseWriter] in *.
    by rewrite E.
  - rewrite serve_rec_Write; cbv zeta. cbn [serve].
    change (writer (unwrap w)) with (ResponseWriter (writer w)).
    change (heap (unwrap w)) with (heap w).
    destruct (http.rw_Write s (heap w) (ResponseWriter (writer w))) as [[[n err]|v] u];
      cbn [fst snd]; [|done].
    unfold called; cbn [fst snd]. intros Hnh.
    pose proof (IH n err (with_writer (mkResponseRecorder u (StatusCode (writer w)) s) w) Hnh) as E.
    unfold unwrap, with_writer in *; cbn [writer heap now log ResponseWriter] in *.
    by rewrite E.
  - cbn [serve]; cbv zeta; cbn [fst snd]. intros Hnh.
    rewrite forallb_app in Hnh. apply andb_prop in Hnh as [Hbody Hrest].
    rewrite (IHb w Hbody). cbn [fst snd].
    by rewrite (IHk _ _ Hrest).
Qed.

(** [HttpLogger] when the wrapped handler returns, and when it panics. *)
Lemma HttpLogger_returned handler req (w : World W) w1 tr :
  serve (handler req) (wrap w) = (Returned tt, w1, tr) →
  HttpLogger handler req w =
    (Returned tt,
     emit (build_event req (heap w1) (writer w1) (time.subMono (now w1) (now w)))
          (unwrap w1)).
Proof. intros Hrun. unfold HttpLogger. by rewrite Hrun. Qed.

Lemma HttpLogger_panicked handler req (w : World W) v w1 tr :
  serve (handler req) (wrap w) = (Panicked v, w1, tr) →
  HttpLogger handler req w = (Panicked v, unwrap w1).
Proof. intros Hrun. unfold HttpLogger. by rewrite Hrun. Qed.

(** The record goes to the end of the sink as the caller left it. *)
Lemma emit_after_run (handler : Handler) req (w : World W) w1 tr (r : zerolog.Event) :
  serve (handler req) (wrap w) = (Returned tt, w1, tr) →
  log (emit r (unwrap w1)) = log w ++ [r].
Proof.
  intros Hrun. destruct (serve_log_clock (handler req) (wrap w)) as [Hlog _].
  rewrite Hrun in Hlog. simpl in *. by rewrite Hlog.
Qed.

(** The shape of the event. *)
Lemma build_event_fields req hp (rec : ResponseRecorder W) d :
  zerolog.fields (build_event req hp rec d) =
    (if decide (StatusCode rec ≠ http.StatusOK)
     then [("body", zerolog.VBytes (read hp (body rec)))] else []) ++
    [("protocol", zerolog.VStr "http");
     ("method", zerolog.VStr (http.Method req));
     ("path", zerolog.VStr (http.RequestURI req));
     ("status_code", zerolog.VInt (StatusCode rec));
     ("status_text", zerolog.VStr (http.StatusText (StatusCode rec)));
     ("duration", zerolog.VDur d)].
Proof. unfold build_event. by destruct (decide _). Qed.

Lemma build_event_level req hp (rec : ResponseRecorder W) d :
  zerolog.level (build_event req hp rec d) =
    if decide (StatusCode rec ≠ http.StatusOK)
    then zerolog.ErrorLevel else zerolog.InfoLevel.
Proof. unfold build_event. by destruct (decide _). Qed.

Lemma build_event_status_code req hp (rec : ResponseRecorder W) d :
  zerolog.field "status_code" (build_event req hp rec d)
    = Some (zerolog.VInt (StatusCode rec)).
Proof. unfold build_event. by destruct (decide _). Qed.

Lemma build_event_duration req hp (rec : ResponseRecorder W) d :
  zerolog.field "duration" (build_event req hp rec d) = Some (zerolog.VDur d).
Proof. unfold build_event. by destruct (decide _). Qed.

Lemma build_event_body req hp (rec : ResponseRecorder W) d :
  zerolog.field "body" (build_event req hp rec d) =
    if decide (StatusCode rec ≠ http.StatusOK)
    then Some (zerolog.VBytes (read hp (body rec))) else None.
Proof. unfold build_event. by destruct (decide _). Qed.

End RecorderFacts.

(** [subMono] on readings of a clock that has not wrapped. *)
Lemma subMono_exact (t u : Z) :
  0 ≤ u → u ≤ t → t < 2 ^ 63 → time.subMono t u = t - u.
Proof.
  intros Hu Hut Ht. unfold time.subMono, int64.
  replace ((t - u + 2 ^ 63) `mod` 2 ^ 64) with (t - u + 2 ^ 63)
    by (symmetry; apply Z.mod_small; lia).
  replace (t - u + 2 ^ 63 - 2 ^ 63) with (t - u) by lia.
  destruct (Z.ltb_spec (t - u) 0); [lia|].
  destruct (Z.ltb_spec 0 (t - u)); destruct (Z.ltb_spec t u); simpl; lia.
Qed.

(** ** The logged record *)

Section Logged.
Context {W : Type} `{!http.ResponseWriter W}.
Implicit Types (handler : Handler) (req : http.Request) (w : World W)
  (tr : list Call).

(** C1, as amended.  When the wrapped handler returns, [HttpLogger]
    returns as well and has appended exactly one record to the log sink,
    after everything the handler did (the world is the one the handler
    left, with the underlying writer back in place).  The record has the
    message of line 51 and carries, in this order, protocol = http, the
    request method, the raw request URI as path, the recorded status
    code, the status text of that code and the measured duration; when
    the recorded status is not 200 a body field comes before them. *)
Theorem HttpLogger_emits_one_record handler req w
    (w1 : World (ResponseRecorder W)) tr :
  serve (handler req) (wrap w) = (Returned tt, w1, tr) →
  ∃ r : zerolog.Event,
    HttpLogger handler req w = (Returned tt, emit r (unwrap w1))
    ∧ log (emit r (unwrap w1)) = log w ++ [r]
    ∧ zerolog.message r = "received a HTTP request"
    ∧ zerolog.fields r =
        (if decide (StatusCode (writer w1) ≠ 200)
         then [("body", zerolog.VBytes (read (heap w1) (body (writer w1))))]
         else []) ++
        [("protocol", zerolog.VStr "http");
         ("method", zerolog.VStr (http.Method req));
         ("path", zerolog.VStr (http.RequestURI req));
         ("status_code", zerolog.VInt (StatusCode (writer w1)));
         ("status_text", zerolog.VStr (http.StatusText (StatusCode (writer w1))));
         ("duration", zerolog.VDur (time.Since (time.Now w) w1))].
Proof.
  intros Hrun. eexists. split; [by apply (HttpLogger_returned _ _ _ _ _ Hrun)|].
  split; [|split].
  - by apply (emit_after_run _ _ _ _ _ _ Hrun).
  - done.
  - apply build_event_fields.
Qed.

(** C2.  When the handler's calls on the decorating writer are
    [WriteHeader(S)] followed by body writes only, however many, and the
    handler returns, the one record emitted has status code [S]. *)
Theorem status_set_before_writes_is_logged handler req w
    (w1 : World (ResponseRecorder W)) (S : Z) writes :
  serve (handler req) (wrap w) = (Returned tt, w1, CWriteHeader S :: writes) →
  forallb is_Write writes = true →
  ∃ r : zerolog.Event,
    HttpLogger handler req w = (Returned tt, emit r (unwrap w1))
    ∧ log (emit r (unwrap w1)) = log w ++ [r]
    ∧ zerolog.field "status_code" r = Some (zerolog.VInt S).
Proof.
  intros Hrun Hwrites. eexists.
  split; [by apply (HttpLogger_returned _ _ _ _ _ Hrun)|]. split.
  - by apply (emit_after_run _ _ _ _ _ _ Hrun).
  - rewrite build_event_status_code.
    pose proof (serve_recorder (handler req) (wrap w)) as [Hst _].
    rewrite Hrun in Hst. cbn [fst snd] in Hst. rewrite Hst. simpl.
    by rewrite last_status_only_Write.
Qed.

(** C3.  When the handler never calls [WriteHeader] on the decorating
    writer and returns, the one record emitted has status code 200. *)
Theorem status_never_set_logs_OK handler req w
    (w1 : World (ResponseRecorder W)) tr :
  serve (handler req) (wrap w) = (Returned tt, w1, tr) →
  forallb (λ c, negb (is_WriteHeader c)) tr = true →
  ∃ r : zerolog.Event,
    HttpLogger handler req w = (Returned tt, emit r (unwrap w1))
    ∧ log (emit r (unwrap w1)) = log w ++ [r]
    ∧ zerolog.field "status_code" r = Some (zerolog.VInt http.StatusOK).
Proof.
  intros Hrun Hnone. eexists.
  split; [by apply (HttpLogger_returned _ _ _ _ _ Hrun)|]. split.
  - by apply (emit_after_run _ _ _ _ _ _ Hrun).
  - rewrite build_event_status_code.
    pose proof (serve_recorder (handler req) (wrap w)) as [Hst _].
    rewrite Hrun in Hst. cbn [fst snd] in Hst. rewrite Hst.
    by rewrite last_status_none.
Qed.

(** C9.  With a clock that has not wrapped (readings within int64,
    counted from zero), the one record appended to the log has as its
    duration the reading when the handler returned minus the reading on
    entry to the logger; it is never negative, and a handler that waits
    [d] on its way is logged with at least [d]. *)
Theorem logged_duration_is_elapsed_time handler req w
    (w1 : World (ResponseRecorder W)) tr :
  serve (handler req) (wrap w) = (Returned tt, w1, tr) →
  0 ≤ now w → now w1 < 2 ^ 63 →
  ∃ r : zerolog.Event,
    HttpLogger handler req w = (Returned tt, emit r (unwrap w1))
    ∧ log (emit r (unwrap w1)) = log w ++ [r]
    ∧ zerolog.field "duration" r = Some (zerolog.VDur (now w1 - now w))
    ∧ 0 ≤ now w1 - now w
    ∧ ∀ d : N, waits d (handler req) → Z.of_N d ≤ now w1 - now w.
Proof.
  intros Hrun Hstart Hend.
  pose proof (serve_log_clock (handler req) (wrap w)) as [_ Hmono].
  rewrite Hrun in Hmono. cbn [fst snd wrap with_writer now] in Hmono.
  eexists. split; [by apply (HttpLogger_returned _ _ _ _ _ Hrun)|].
  split; [by apply (emit_after_run _ _ _ _ _ _ Hrun)|].
  split; [|split].
  - rewrite build_event_duration. by rewrite subMono_exact.
  - lia.
  - intros d Hd. pose proof (serve_waits d _ Hd (wrap w)) as Hwait.
    rewrite Hrun in Hwait. cbn [fst snd wrap with_writer now] in Hwait.
    specialize (Hwait eq_refl). lia.
Qed.

(** C10.  When the handler calls [WriteHeader] several times, the one
    record emitted has the argument of the last of these calls as its
    status code: each call overwrites what the recorder held. *)
Theorem last_status_set_is_logged handler req w
    (w1 : World (ResponseRecorder W)) earlier (S : Z) later :
  serve (handler req) (wrap w) = (Returned tt, w1, earlier ++ CWriteHeader S :: later) →
  forallb (λ c, negb (is_WriteHeader c)) later = true →
  StatusCode (writer w1) = S
  ∧ ∃ r : zerolog.Event,
      HttpLogger handler req w = (Returned tt, emit r (unwrap w1))
      ∧ log (emit r (unwrap w1)) = log w ++ [r]
      ∧ zerolog.field "status_code" r = Some (zerolog.VInt S).
Proof.
  intros Hrun Hlater.
  pose proof (serve_recorder (handler req) (wrap w)) as [Hst _].
  rewrite Hrun in Hst. cbn [fst snd] in Hst.
  rewrite last_status_last in Hst by done.
  split; [done|]. eexists.
  split; [by apply (HttpLogger_returned _ _ _ _ _ Hrun)|]. split.
  - by apply (emit_after_run _ _ _ _ _ _ Hrun).
  - rewrite build_event_status_code. by rewrite Hst.
Qed.

(** Severity and body of the record, as the code decides them: info
    and no body field for a recorded status of 200; otherwise error, with
    a body field holding what the slice of the last [Write] contains
    when the record is built. *)
Lemma HttpLogger_severity handler req w (w1 : World (ResponseRecorder W)) tr :
  serve (handler req) (wrap w) = (Returned tt, w1, tr) →
  ∃ r : zerolog.Event,
    HttpLogger handler req w = (Returned tt, emit r (unwrap w1))
    ∧ (StatusCode (writer w1) = http.StatusOK →
         zerolog.level r = zerolog.InfoLevel ∧ zerolog.field "body" r = None)
    ∧ (StatusCode (writer w1) ≠ http.StatusOK →
         zerolog.level r = zerolog.ErrorLevel
         ∧ zerolog.field "body" r
             = Some (zerolog.VBytes (read (heap w1) (last_written nil_slice tr)))).
Proof.
  intros Hrun. eexists.
  split; [by apply (HttpLogger_returned _ _ _ _ _ Hrun)|].
  pose proof (serve_recorder (handler req) (wrap w)) as [_ Hbody].
  rewrite Hrun in Hbody. cbn [fst snd] in Hbody.
  rewrite build_event_level, build_event_body.
  split; intros Hst; destruct (decide _); try done.
  by rewrite Hbody.
Qed.

(** C6.  [Header] on the decorating writer panics whatever the state,
    and nothing else of the observer does: [WriteHeader] and [Write] end
    exactly as the underlying writer's method ends, and [HttpLogger]
    panics only with a panic of the wrapped handler's run. *)
Theorem only_Header_panics :
  (∀ r : ResponseRecorder W,
     http.rw_Header r = (Panicked "implement me", r))
  ∧ (∀ code (r : ResponseRecorder W),
       (http.rw_WriteHeader code r).1
         = (http.rw_WriteHeader code (ResponseWriter r)).1)
  ∧ (∀ p hp (r : ResponseRecorder W),
       (http.rw_Write p hp r).1 = (http.rw_Write p hp (ResponseWriter r)).1)
  ∧ (∀ handler req w v,
       (HttpLogger handler req w).1 = Panicked v
       ↔ (serve (handler req) (wrap w)).1.1 = Panicked v).
Proof.
  split; [done|]. split; [|split].
  - intros code r. simpl. unfold ResponseRecorder_WriteHeader. simpl.
    by destruct (http.rw_WriteHeader code (ResponseWriter r)).
  - intros p hp r. simpl. unfold ResponseRecorder_Write. simpl.
    by destruct (http.rw_Write p hp (ResponseWriter r)).
  - intros handler req w v. unfold HttpLogger.
    destruct (serve (handler req) (wrap w)) as [[[[]|v'] w1] tr]; simpl; split; congruence.
Qed.

(** C8, as amended.  Whatever the status, the recorder's body is the
    slice passed to the most recent [Write]; it is nil only if the
    handler has not written or passed nil to its last write.  The status
    decides only whether the log record carries the body: when the handler
    returns, the one record appended has no body field exactly for a
    recorded status of 200, and otherwise a body field with what that
    slice holds. *)
Theorem recorder_body_is_last_written handler req w :
  let run := serve (handler req) (wrap w) in
  body (writer run.1.2) = last_written nil_slice run.2
  ∧ (∀ pre p bs post,
       run.2 = pre ++ CWrite p bs :: post →
       forallb (λ c, negb (is_Write c)) post = true →
       body (writer run.1.2) = p)
  ∧ (forallb (λ c, negb (is_Write c)) run.2 = true → body (writer run.1.2) = nil_slice)
  ∧ (body (writer run.1.2) = nil_slice →
       forallb (λ c, negb (is_Write c)) run.2 = true
       ∨ ∃ pre bs post,
           run.2 = pre ++ CWrite nil_slice bs :: post
           ∧ forallb (λ c, negb (is_Write c)) post = true)
  ∧ (run.1.1 = Returned tt →
       ∃ r : zerolog.Event,
         HttpLogger handler req w = (Returned tt, emit r (unwrap run.1.2))
         ∧ log (emit r (unwrap run.1.2)) = log w ++ [r]
         ∧ (zerolog.field "body" r = None ↔ StatusCode (writer run.1.2) = http.StatusOK)
         ∧ (StatusCode (writer run.1.2) ≠ http.StatusOK →
              zerolog.field "body" r
                = Some (zerolog.VBytes (read (heap run.1.2) (body (writer run.1.2)))))).
Proof.
  intros run. destruct (serve_recorder (handler req) (wrap w)) as [_ Hbody].
  fold run in Hbody. change (body (writer (wrap w))) with nil_slice in Hbody.
  split; [exact Hbody|]. split; [|split; [|split]].
  - intros pre p bs post Htr Hpost. by rewrite Hbody, Htr, last_written_last.
  - intros Hnone. by rewrite Hbody, last_written_none.
  - intros Hnil. destruct (last_Write_split run.2) as [Hnone|(pre & p & bs & post & Htr & Hpost)];
      [by left|right].
    exists pre, bs, post. split; [|done].
    rewrite Hbody, Htr, last_written_last in Hnil by done. by subst p.
  - intros Hret.
    assert (Hrun : serve (handler req) (wrap w) = (Returned tt, run.1.2, run.2)).
    { subst run. destruct (serve (handler req) (wrap w)) as [[res w1] tr].
      simpl in *. by subst res. }
    eexists. split; [by apply (HttpLogger_returned _ _ _ _ _ Hrun)|].
    split; [by apply (emit_after_run _ _ _ _ _ _ Hrun)|].
    rewrite build_event_body.
    destruct (decide (StatusCode (writer run.1.2) ≠ http.StatusOK)) as [Hne|Heq].
    + split; [split; [discriminate|done]|done].
    + apply dec_stable in Heq. split; [done|]. intros Hne. by destruct Hne.
Qed.

End Logged.

(** C1, the claim as stated fails on an error response: the record has a
    seventh field, the body, in front of the six. *)
Lemma HttpLogger_error_record_has_body_field :
  ∃ (r : zerolog.Event) (w' : World httptest.Recorder),
    HttpLogger (respond 500 "boom") get_root (httptest.world 0) = (Returned tt, w')
    ∧ log w' = [r]
    ∧ zerolog.keys r =
        ["body"; "protocol"; "method"; "path"; "status_code"; "status_text"; "duration"]
    ∧ zerolog.keys r ≠
        ["protocol"; "method"; "path"; "status_code"; "status_text"; "duration"].
Proof.
  eexists _, _. split; [vm_compute; reflexivity|].
  split; [reflexivity|]. split; [reflexivity|discriminate].
Qed.

(** A 200 response with body "ok": one info record with the six fields. *)
Lemma HttpLogger_emits_one_record_witness :
  ∃ r : zerolog.Event,
    HttpLogger (respond 200 "ok") get_root (httptest.world 0)
      = (Returned tt, emit r (unwrap (recorded_run (respond 200 "ok") 0).1.2))
    ∧ zerolog.level r = zerolog.InfoLevel
    ∧ zerolog.fields r =
        [("protocol", zerolog.VStr "http"); ("method", zerolog.VStr "GET");
         ("path", zerolog.VStr "/"); ("status_code", zerolog.VInt 200);
         ("status_text", zerolog.VStr "OK"); ("duration", zerolog.VDur 0)].
Proof.
  assert (Hserve : serve (respond 200 "ok" get_root) (wrap (httptest.world 0))
            = (Returned tt, (recorded_run (respond 200 "ok") 0).1.2,
               (recorded_run (respond 200 "ok") 0).2)) by (vm_compute; reflexivity).
  destruct (HttpLogger_emits_one_record _ _ _ _ _ Hserve)
    as (r & Hrun & Hlog & Hmsg & Hfields).
  exists r. split; [exact Hrun|]. split; [|exact Hfields].
  vm_compute in Hrun. injection Hrun as <-. reflexivity.
Defined.

(** Status 404 set first, then two writes: the record says 404. *)
Lemma status_set_before_writes_is_logged_witness :
  ∃ r : zerolog.Event,
    HttpLogger (respond_twice 404 "not " "found") get_root (httptest.world 0)
      = (Returned tt, emit r (unwrap (recorded_run (respond_twice 404 "not " "found") 0).1.2))
    ∧ log (emit r (unwrap (recorded_run (respond_twice 404 "not " "found") 0).1.2))
        = log (httptest.world 0) ++ [r]
    ∧ zerolog.field "status_code" r = Some (zerolog.VInt 404).
Proof.
  apply (status_set_before_writes_is_logged
           (respond_twice 404 "not " "found") get_root (httptest.world 0)
           (recorded_run (respond_twice 404 "not " "found") 0).1.2 404
           [CWrite (slice 0 0 4) (bytes_of "not "); CWrite (slice 1 0 5) (bytes_of "found")]).
  - vm_compute; reflexivity.
  - reflexivity.
Defined.

(** A handler that only writes: the record says 200. *)
Lemma status_never_set_logs_OK_witness :
  ∃ r : zerolog.Event,
    HttpLogger (just_write "ok") get_root (httptest.world 0)
      = (Returned tt, emit r (unwrap (recorded_run (just_write "ok") 0).1.2))
    ∧ log (emit r (unwrap (recorded_run (just_write "ok") 0).1.2))
        = log (httptest.world 0) ++ [r]
    ∧ zerolog.field "status_code" r = Some (zerolog.VInt http.StatusOK).
Proof.
  apply (status_never_set_logs_OK
           (just_write "ok") get_root (httptest.world 0)
           (recorded_run (just_write "ok") 0).1.2
           (recorded_run (just_write "ok") 0).2).
  - vm_compute; reflexivity.
  - vm_compute; reflexivity.
Defined.

(** A handler that sleeps 250 ns before it writes, entered at 1000. *)
Lemma logged_duration_is_elapsed_time_witness :
  ∃ r : zerolog.Event,
    HttpLogger (slow 250 "ok") get_root (httptest.world 1000)
      = (Returned tt, emit r (unwrap (recorded_run (slow 250 "ok") 1000).1.2))
    ∧ log (emit r (unwrap (recorded_run (slow 250 "ok") 1000).1.2))
        = log (httptest.world 1000) ++ [r]
    ∧ zerolog.field "duration" r
        = Some (zerolog.VDur (now (recorded_run (slow 250 "ok") 1000).1.2
                              - now (httptest.world 1000)))
    ∧ 0 ≤ now (recorded_run (slow 250 "ok") 1000).1.2 - now (httptest.world 1000)
    ∧ 250 ≤ now (recorded_run (slow 250 "ok") 1000).1.2 - now (httptest.world 1000).
Proof.
  destruct (logged_duration_is_elapsed_time
              (slow 250 "ok") get_root (httptest.world 1000)
              (recorded_run (slow 250 "ok") 1000).1.2
              (recorded_run (slow 250 "ok") 1000).2)
    as (r & Hrun & Hlog & Hdur & Hpos & Hwait).
  - vm_compute; reflexivity.
  - vm_compute; discriminate.
  - vm_compute; reflexivity.
  - exists r. repeat split; try assumption.
    apply (Hwait 250%N). apply waits_here. reflexivity.
Defined.

(** The same run, evaluated: 250 ns asleep, 250 ns logged. *)
Example slow_is_logged_with_its_delay :
  zerolog.field "duration" <$> (log (HttpLogger (slow 250 "ok") get_root (httptest.world 1000)).2)
    = [Some (zerolog.VDur 250)].
Proof. reflexivity. Qed.

(** C10 on a concrete run: the log says 500, the last status set, while
    the underlying writer kept 404, the first. *)
Lemma last_status_set_is_logged_witness :
  StatusCode (writer (recorded_run (set_twice 404 500) 0).1.2) = 500
  ∧ (∃ r : zerolog.Event,
       HttpLogger (set_twice 404 500) get_root (httptest.world 0)
         = (Returned tt, emit r (unwrap (recorded_run (set_twice 404 500) 0).1.2))
       ∧ log (emit r (unwrap (recorded_run (set_twice 404 500) 0).1.2))
           = log (httptest.world 0) ++ [r]
       ∧ zerolog.field "status_code" r = Some (zerolog.VInt 500))
  ∧ httptest.Code (writer (HttpLogger (set_twice 404 500) get_root (httptest.world 0)).2) = 404.
Proof.
  pose proof (last_status_set_is_logged
           (set_twice 404 500) get_root (httptest.world 0)
           (recorded_run (set_twice 404 500) 0).1.2 [CWriteHeader 404] 500 []) as Hlast.
  destruct Hlast as [Hst Hrec].
  - vm_compute; reflexivity.
  - reflexivity.
  - split; [exact Hst|]. split; [exact Hrec|reflexivity].
Defined.

(** C8, the claim as stated fails: after a 200 response with a body the
    recorder holds that body's slice. *)
Lemma recorder_keeps_body_of_OK_response :
  (recorded_run (just_write "ok") 0).1.1 = Returned tt
  ∧ StatusCode (writer (recorded_run (just_write "ok") 0).1.2) = http.StatusOK
  ∧ body (writer (recorded_run (just_write "ok") 0).1.2) = slice 0 0 2
  ∧ read (heap (recorded_run (just_write "ok") 0).1.2)
         (body (writer (recorded_run (just_write "ok") 0).1.2)) = bytes_of "ok"
  ∧ body (writer (recorded_run (just_write "ok") 0).1.2) ≠ nil_slice.
Proof. repeat split; try reflexivity. discriminate. Qed.

(** A 200 answer with body "ok": the recorder holds the slice, the one
    record appended carries no body. *)
Lemma recorder_body_is_last_written_witness :
  body (writer (recorded_run (just_write "ok") 0).1.2) = slice 0 0 2
  ∧ ∃ r : zerolog.Event,
      HttpLogger (just_write "ok") get_root (httptest.world 0)
        = (Returned tt, emit r (unwrap (recorded_run (just_write "ok") 0).1.2))
      ∧ log (emit r (unwrap (recorded_run (just_write "ok") 0).1.2))
          = log (httptest.world 0) ++ [r]
      ∧ zerolog.field "body" r = None.
Proof.
  destruct (recorder_body_is_last_written (just_write "ok") get_root (httptest.world 0))
    as (_ & Hlast & _ & _ & Hlogged).
  split.
  - apply (Hlast [] (slice 0 0 2) (bytes_of "ok") []); reflexivity.
  - destruct Hlogged as (r & Hrun & Hlog & Hbody & _); [reflexivity|].
    exists r. split; [exact Hrun|]. split; [exact Hlog|].
    apply Hbody. reflexivity.
Defined.

(** After [w.Write(nil)] a write has been made and the recorder's body is
    nil all the same. *)
Example recorder_body_after_nil_write :
  (recorded_run write_nil 0).2 = [CWrite nil_slice []]
  ∧ body (writer (recorded_run write_nil 0).1.2) = nil_slice.
Proof. split; reflexivity. Qed.

(** C4, the code at the failing input.  The handler answers 500 with the
    bytes of "boom" and then stores into the buffer it passed; the
    record is at error level, and its body field holds "zoom", not the
    bytes that were passed to the last [Write]. *)
Theorem HttpLogger_logs_reused_buffer :
  ∃ (r : zerolog.Event) (w' : World httptest.Recorder),
    HttpLogger (respond_then_reuse 500 "boom" "z"%byte) get_root (httptest.world 0)
      = (Returned tt, w')
    ∧ log w' = [r]
    ∧ zerolog.level r = zerolog.ErrorLevel
    ∧ last_bytes (recorded_run (respond_then_reuse 500 "boom" "z"%byte) 0).2 = bytes_of "boom"
    ∧ httptest.Body (writer w') = bytes_of "boom"
    ∧ zerolog.field "body" r = Some (zerolog.VBytes (bytes_of "zoom"))
    ∧ zerolog.field "body" r ≠ Some (zerolog.VBytes (bytes_of "boom")).
Proof.
  eexists _, _. split; [vm_compute; reflexivity|].
  repeat split; try reflexivity. discriminate.
Qed.

(** C5, the code at the failing input.  Given the underlying writer, the
    handler sets a header, sets status 201 and returns; through
    [HttpLogger] the same handler is stopped by a panic that the recorder
    raises, the underlying writer sees no call at all, and nothing is
    logged. *)
Theorem HttpLogger_stops_handler_using_Header :
  serve (set_header "Content-Type" "text/plain" 201 get_root) (httptest.world 0)
    = (Returned tt,
       mkWorld (httptest.mkRecorder 201 0 [] true)
               (mkHeap [] [ {[ "Content-Type" := ["text/plain"] ]} ]) 0 [],
       [CHeader; CWriteHeader 201])
  ∧ HttpLogger (set_header "Content-Type" "text/plain" 201) get_root (httptest.world 0)
      = (Panicked "implement me", httptest.world 0).
Proof. split; reflexivity. Qed.

(** C7, the code at the failing input.  [w.Header().Set(...)] on the
    underlying writer leaves the header in its map; on the decorating
    writer the call of [Header] panics, and the map stays empty. *)
Theorem recorder_does_not_forward_Header :
  (hdrs (heap (serve (set_header "Content-Type" "text/plain" 200 get_root)
                     (httptest.world 0)).1.2) !! 0%nat)
     ≫= (λ m, m !! "Content-Type") = Some ["text/plain"]
  ∧ recorded_run (set_header "Content-Type" "text/plain" 200) 0
      = (Panicked "implement me", wrap (httptest.world 0), [CHeader])
  ∧ (hdrs (heap (recorded_run (set_header "Content-Type" "text/plain" 200) 0).1.2) !! 0%nat)
       ≫= (λ m, m !! "Content-Type") = None.
Proof. repeat split; reflexivity. Qed.

(** A panic of the wrapped handler reaches the caller with its value;
    the underlying writer keeps what was done before it, and nothing is
    logged. *)
Example handler_panic_passes_through :
  HttpLogger (fail_after 500 "database is down") get_root (httptest.world 0)
    = (Panicked "database is down",
       mkWorld (httptest.mkRecorder 500 0 [] true) (mkHeap [] [∅]) 0 []).
Proof. reflexivity. Qed.

(** ** More on the logger *)

(** What a slice holds does not change when buffers are only added. *)
Lemma read_grown (hp hp' : Heap) (s : byteslice) :
  bufs hp `prefix_of` bufs hp' → read hp s ≠ [] → read hp' s = read hp s.
Proof.
  intros [more Hmore] Hne. destruct s as [|b o n]; [done|]. simpl in *.
  destruct (bufs hp !! b) as [a|] eqn:Hb.
  - rewrite Hmore. by rewrite (lookup_app_l_Some _ _ _ _ Hb).
  - simpl in Hne. rewrite drop_nil, take_nil in Hne. done.
Qed.

Section MoreRecorderFacts.
Context {W : Type} `{!http.ResponseWriter W}.

(** A body that never stores leaves every buffer as it was; it can only
    add buffers. *)
Lemma serve_keeps_buffers {T : Type} `{!http.ResponseWriter T} (p : prog) :
  no_Poke p → ∀ w : World T, bufs (heap w) `prefix_of` bufs (heap (serve p w).1.2).
Proof.
  induction 1 as [|v|d k _ IH|bs k _ IH|h f k _ IH|h k _ IH|k _ IH|code k _ IH|s k _ IH
                  |body k _ IHb _ IHk|i k _ IH];
    intros w; cbn [serve].
  - done.
  - done.
  - exact (IH (tick d w)).
  - etrans; [|exact (IH _ (with_heap (alloc bs (heap w)).2 w))].
    simpl. by apply prefix_app_r.
  - unfold update_hdr. destruct (hdrs (heap w) !! h) as [m|]; [|done].
    exact (IH (with_heap _ w)).
  - apply IH.
  - destruct (http.rw_Header (writer w)) as [[h|v] t]; [|done].
    exact (IH h (with_writer t w)).
  - destruct (http.rw_WriteHeader code (writer w)) as [[[]|v] t]; [|done].
    exact (IH (with_writer t w)).
  - destruct (http.rw_Write s (heap w) (writer w)) as [[[n err]|v] t]; [|done].
    exact (IH n err (with_writer t w)).
  - cbv zeta; cbn [fst snd]. etrans; [exact (IHb w)|apply IHk].
  - exact (IH _ w).
Qed.

(** After a body that never stores, the slice of its last write still
    holds the bytes that were passed, provided there were any. *)
Lemma serve_last_write_intact {T : Type} `{!http.ResponseWriter T} (p : prog) :
  no_Poke p → ∀ (w : World T) (d : byteslice) (dbs : list byte),
  (dbs ≠ [] → read (heap w) d = dbs) →
  foldl (λ acc c, match c with CWrite _ bs => bs | _ => acc end) dbs (serve p w).2 ≠ [] →
  read (heap (serve p w).1.2) (last_written d (serve p w).2)
    = foldl (λ acc c, match c with CWrite _ bs => bs | _ => acc end) dbs (serve p w).2.
Proof.
  induction 1 as [|v|d' k _ IH|bs k Hk IH|h f k _ IH|h k _ IH|k _ IH|code k _ IH|s k _ IH
                  |body k _ IHb _ IHk|i k _ IH];
    intros w d dbs Hd; cbn [serve].
  - simpl. intros Hne. by apply Hd.
  - simpl. intros Hne. by apply Hd.
  - exact (IH (tick d' w) d dbs Hd).
  - apply (IH _ (with_heap (alloc bs (heap w)).2 w) d dbs).
    intros Hne. rewrite <- (Hd Hne). apply read_grown.
    + simpl. by apply prefix_app_r.
    + by rewrite (Hd Hne).
  - unfold update_hdr. destruct (hdrs (heap w) !! h) as [m|].
    + apply (IH (with_heap _ w) d dbs). intros Hne. rewrite <- (Hd Hne).
      by destruct d.
    + simpl. intros Hne. by apply Hd.
  - apply IH, Hd.
  - destruct (http.rw_Header (writer w)) as [[h|v] t].
    + exact (IH h (with_writer t w) d dbs Hd).
    + simpl. intros Hne. by apply Hd.
  - destruct (http.rw_WriteHeader code (writer w)) as [[[]|v] t].
    + exact (IH (with_writer t w) d dbs Hd).
    + simpl. intros Hne. by apply Hd.
  - destruct (http.rw_Write s (heap w) (writer w)) as [[[n err]|v] t].
    + exact (IH n err (with_writer t w) s (read (heap w) s) (λ _, eq_refl)).
    + simpl. done.
  - cbv zeta; cbn [fst snd]. unfold last_written. rewrite !foldl_app.
    apply IHk. exact (IHb w d dbs Hd).
  - exact (IH _ w d dbs Hd).
Qed.


(** Given the underlying writer, a body that makes no [Header] call makes
    none on the recorder either. *)
Lemma no_Header_direct (p : prog) :
  no_TypeAssert p → ∀ w : World (ResponseRecorder W),
  forallb (λ c, negb (is_Header c)) (serve p (unwrap w)).2 = true →
  forallb (λ c, negb (is_Header c)) (serve p w).2 = true.
Proof.
  induction 1 as [|v|d k _ IH|bs k _ IH|b i v k _ IH|h f k _ IH|h k _ IH|k _ IH
                  |code k _ IH|s k _ IH|body k Hbody IHb _ IHk]; intros w.
  - done.
  - done.
  - exact (IH (tick d w)).
  - cbn [serve]. change (heap (unwrap w)) with (heap w).
    destruct (alloc bs (heap w)) as [b hp]. exact (IH b (with_heap hp w)).
  - cbn [serve]. change (heap (unwrap w)) with (heap w).
    destruct (store b i v (heap w)) as [hp|]; [exact (IH (with_heap hp w))|done].
  - cbn [serve]. change (heap (unwrap w)) with (heap w).
    destruct (update_hdr h f (heap w)) as [hp|]; [exact (IH (with_heap hp w))|done].
  - exact (IH _ w).
  - cbn [serve]. destruct (http.rw_Header (writer (unwrap w))) as [[h|v] t];
      unfold called; simpl; discriminate.
  - rewrite serve_rec_WriteHeader; cbv zeta. cbn [serve].
    change (writer (unwrap w)) with (ResponseWriter (writer w)).
    destruct (http.rw_WriteHeader code (ResponseWriter (writer w))) as [[[]|v] u];
      cbn [fst snd]; [|done].
    unfold called; cbn [fst snd forallb is_Header negb andb].
    exact (IH (with_writer (mkResponseRecorder u code (body (writer w))) w)).
  - rewrite serve_rec_Write; cbv zeta. cbn [serve].
    change (writer (unwrap w)) with (ResponseWriter (writer w)).
    change (heap (unwrap w)) with (heap w).
    destruct (http.rw_Write s (heap w) (ResponseWriter (writer w))) as [[[n err]|v] u];
      cbn [fst snd]; [|done].
    unfold called; cbn [fst snd forallb is_Header negb andb].
    exact (IH n err (with_writer (mkResponseRecorder u (StatusCode (writer w)) s) w)).
  - cbn [serve]; cbv zeta; cbn [fst snd]. intros Hdirect.
    rewrite forallb_app in Hdirect. apply andb_prop in Hdirect as [Hb Hk].
    pose proof (IHb w Hb) as Hb'.
    rewrite (recorder_transparent body Hbody w Hb') in Hk. cbn [fst snd] in Hk.
    rewrite forallb_app, Hb'. exact (IHk _ _ Hk).
Qed.

Lemma unwrap_wrap (w : World W) : unwrap (wrap w) = w.
Proof. by destruct w. Qed.

End MoreRecorderFacts.

Section MoreLogged.
Context {W : Type} `{!http.ResponseWriter W}.
Implicit Types (handler : Handler) (req : http.Request) (w : World W).

(** X1.  A handler that uses its writer through the three methods of the
    interface only (no type assertion on it) and makes no [Header] call
    when given the underlying writer behaves the same through
    [HttpLogger]: it ends the same way, a panic with the same value, makes
    the same calls with the same arguments, and leaves the underlying
    writer, the heap and the clock as the direct run leaves them. *)
Theorem HttpLogger_passes_through handler req w :
  no_TypeAssert (handler req) →
  forallb (λ c, negb (is_Header c)) (serve (handler req) w).2 = true →
  (HttpLogger handler req w).1 = (serve (handler req) w).1.1
  ∧ (serve (handler req) (wrap w)).2 = (serve (handler req) w).2
  ∧ writer (HttpLogger handler req w).2 = writer (serve (handler req) w).1.2
  ∧ heap (HttpLogger handler req w).2 = heap (serve (handler req) w).1.2
  ∧ now (HttpLogger handler req w).2 = now (serve (handler req) w).1.2.
Proof.
  intros Hplain Hdirect. rewrite <- (unwrap_wrap w) in Hdirect.
  pose proof (recorder_transparent (handler req) Hplain (wrap w)
                (no_Header_direct _ Hplain _ Hdirect)) as Hsame.
  rewrite unwrap_wrap in Hsame. rewrite Hsame. unfold HttpLogger.
  destruct (serve (handler req) (wrap w)) as [[[[]|v] w1] tr]; by cbn.
Qed.

(** X2.  A panic of the wrapped handler leaves [HttpLogger] with the same
    value, and no record is written for the request. *)
Theorem handler_panic_is_not_logged handler req w
    (w1 : World (ResponseRecorder W)) v tr :
  serve (handler req) (wrap w) = (Panicked v, w1, tr) →
  HttpLogger handler req w = (Panicked v, unwrap w1)
  ∧ log (HttpLogger handler req w).2 = log w.
Proof.
  intros Hrun. rewrite (HttpLogger_panicked _ _ _ _ _ _ Hrun). split; [done|].
  destruct (serve_log_clock (handler req) (wrap w)) as [Hlog _].
  by rewrite Hrun in Hlog.
Qed.

(** X3.  The level of the record follows the recorded status and nothing
    else: info exactly for 200, error exactly otherwise; and the body
    field is absent exactly for 200, otherwise holding what the slice of
    the last write contains when the record is built. *)
Theorem severity_follows_recorded_status handler req w
    (w1 : World (ResponseRecorder W)) tr :
  serve (handler req) (wrap w) = (Returned tt, w1, tr) →
  ∃ r : zerolog.Event,
    HttpLogger handler req w = (Returned tt, emit r (unwrap w1))
    ∧ log (emit r (unwrap w1)) = log w ++ [r]
    ∧ (zerolog.level r = zerolog.InfoLevel ↔ StatusCode (writer w1) = http.StatusOK)
    ∧ (zerolog.level r = zerolog.ErrorLevel ↔ StatusCode (writer w1) ≠ http.StatusOK)
    ∧ (zerolog.field "body" r = None ↔ StatusCode (writer w1) = http.StatusOK)
    ∧ (StatusCode (writer w1) ≠ http.StatusOK →
         zerolog.field "body" r
           = Some (zerolog.VBytes (read (heap w1) (last_written nil_slice tr)))).
Proof.
  intros Hrun. eexists.
  split; [by apply (HttpLogger_returned _ _ _ _ _ Hrun)|].
  split; [by apply (emit_after_run _ _ _ _ _ _ Hrun)|].
  destruct (serve_recorder (handler req) (wrap w)) as [_ Hbody].
  rewrite Hrun in Hbody. cbn [fst snd] in Hbody.
  rewrite build_event_level, build_event_body.
  destruct (decide (StatusCode (writer w1) ≠ http.StatusOK)) as [Hne|Heq].
  - repeat split; try done. by rewrite Hbody.
  - apply dec_stable in Heq. repeat split; try done.
Qed.

(** X4.  An error status without any body write is logged with a body
    field that is present and empty. *)
Theorem error_without_write_logs_empty_body handler req w
    (w1 : World (ResponseRecorder W)) tr :
  serve (handler req) (wrap w) = (Returned tt, w1, tr) →
  forallb (λ c, negb (is_Write c)) tr = true →
  StatusCode (writer w1) ≠ http.StatusOK →
  ∃ r : zerolog.Event,
    HttpLogger handler req w = (Returned tt, emit r (unwrap w1))
    ∧ log (emit r (unwrap w1)) = log w ++ [r]
    ∧ zerolog.level r = zerolog.ErrorLevel
    ∧ zerolog.field "body" r = Some (zerolog.VBytes []).
Proof.
  intros Hrun Hnone Hst. eexists.
  split; [by apply (HttpLogger_returned _ _ _ _ _ Hrun)|].
  split; [by apply (emit_after_run _ _ _ _ _ _ Hrun)|].
  rewrite build_event_level, build_event_body.
  destruct (decide _); [|done]. split; [done|].
  destruct (serve_recorder (handler req) (wrap w)) as [_ Hbody].
  rewrite Hrun in Hbody. cbn [fst snd] in Hbody.
  by rewrite Hbody, last_written_none.
Qed.


(** X6.  For a handler that never stores into a buffer, the value handed
    to the logger as the body of an error record is exactly the bytes
    passed to the handler's last write, when that write passed any. *)
Theorem body_is_last_write_without_stores handler req w
    (w1 : World (ResponseRecorder W)) tr :
  no_Poke (handler req) →
  serve (handler req) (wrap w) = (Returned tt, w1, tr) →
  StatusCode (writer w1) ≠ http.StatusOK →
  last_bytes tr ≠ [] →
  ∃ r : zerolog.Event,
    HttpLogger handler req w = (Returned tt, emit r (unwrap w1))
    ∧ log (emit r (unwrap w1)) = log w ++ [r]
    ∧ zerolog.field "body" r = Some (zerolog.VBytes (last_bytes tr)).
Proof.
  intros Hno Hrun Hst Hne. eexists.
  split; [by apply (HttpLogger_returned _ _ _ _ _ Hrun)|].
  split; [by apply (emit_after_run _ _ _ _ _ _ Hrun)|].
  rewrite build_event_body. destruct (decide _); [|done].
  destruct (serve_recorder (handler req) (wrap w)) as [_ Hbody].
  pose proof (serve_last_write_intact (handler req) Hno (wrap w) nil_slice []
                (λ H, False_ind _ (H eq_refl))) as Hkept.
  rewrite Hrun in Hbody, Hkept. cbn [fst snd] in Hbody, Hkept.
  rewrite Hbody. f_equal. f_equal. by apply Hkept.
Qed.

End MoreLogged.

(** A handler that writes twice and sets no header, logged or not. *)
Lemma HttpLogger_passes_through_witness :
  (HttpLogger (respond_twice 404 "not " "found") get_root (httptest.world 0)).1
    = Returned tt
  ∧ httptest.Code (writer (HttpLogger (respond_twice 404 "not " "found") get_root
                             (httptest.world 0)).2) = 404
  ∧ httptest.Body (writer (HttpLogger (respond_twice 404 "not " "found") get_root
                             (httptest.world 0)).2) = bytes_of "not found"
  ∧ writer (HttpLogger (respond_twice 404 "not " "found") get_root (httptest.world 0)).2
      = writer (serve (respond_twice 404 "not " "found" get_root) (httptest.world 0)).1.2.
Proof.
  destruct (HttpLogger_passes_through (respond_twice 404 "not " "found") get_root
              (httptest.world 0)) as (Hres & Hcalls & Hwriter & Hheap & Hnow).
  - repeat (constructor; intros).
  - vm_compute; reflexivity.
  - split; [reflexivity|]. split; [reflexivity|]. split; [reflexivity|exact Hwriter].
Defined.

(** Status 500, then a panic: the panic comes out, the log stays empty. *)
Lemma handler_panic_is_not_logged_witness :
  HttpLogger (fail_after 500 "database is down") get_root (httptest.world 0)
    = (Panicked "database is down",
       unwrap (recorded_run (fail_after 500 "database is down") 0).1.2)
  ∧ log (HttpLogger (fail_after 500 "database is down") get_root (httptest.world 0)).2
      = log (httptest.world 0).
Proof.
  apply (handler_panic_is_not_logged (fail_after 500 "database is down") get_root
           (httptest.world 0)
           (recorded_run (fail_after 500 "database is down") 0).1.2
           "database is down"
           (recorded_run (fail_after 500 "database is down") 0).2).
  vm_compute; reflexivity.
Defined.

(** A 500 with body: error level, the body attached. *)
Lemma severity_follows_recorded_status_witness :
  ∃ r : zerolog.Event,
    HttpLogger (respond 500 "boom") get_root (httptest.world 0)
      = (Returned tt, emit r (unwrap (recorded_run (respond 500 "boom") 0).1.2))
    ∧ zerolog.level r = zerolog.ErrorLevel
    ∧ zerolog.field "body" r = Some (zerolog.VBytes (bytes_of "boom")).
Proof.
  destruct (severity_follows_recorded_status (respond 500 "boom") get_root (httptest.world 0)
              (recorded_run (respond 500 "boom") 0).1.2
              (recorded_run (respond 500 "boom") 0).2)
    as (r & Hrun & _ & _ & Herr & _ & Hbody).
  - vm_compute; reflexivity.
  - exists r. split; [exact Hrun|]. split.
    + apply Herr. vm_compute; discriminate.
    + apply Hbody. vm_compute; discriminate.
Defined.

(** A bare 404: error level, the body field empty. *)
Lemma error_without_write_logs_empty_body_witness :
  ∃ r : zerolog.Event,
    HttpLogger (status_only 404) get_root (httptest.world 0)
      = (Returned tt, emit r (unwrap (recorded_run (status_only 404) 0).1.2))
    ∧ log (emit r (unwrap (recorded_run (status_only 404) 0).1.2))
        = log (httptest.world 0) ++ [r]
    ∧ zerolog.level r = zerolog.ErrorLevel
    ∧ zerolog.field "body" r = Some (zerolog.VBytes []).
Proof.
  apply (error_without_write_logs_empty_body (status_only 404) get_root (httptest.world 0)
           (recorded_run (status_only 404) 0).1.2 (recorded_run (status_only 404) 0).2).
  - vm_compute; reflexivity.
  - vm_compute; reflexivity.
  - vm_compute; discriminate.
Defined.


(** A 500 with body "boom" from a handler that leaves its buffer alone. *)
Lemma body_is_last_write_without_stores_witness :
  ∃ r : zerolog.Event,
    HttpLogger (respond 500 "boom") get_root (httptest.world 0)
      = (Returned tt, emit r (unwrap (recorded_run (respond 500 "boom") 0).1.2))
    ∧ log (emit r (unwrap (recorded_run (respond 500 "boom") 0).1.2))
        = log (httptest.world 0) ++ [r]
    ∧ zerolog.field "body" r
        = Some (zerolog.VBytes (last_bytes (recorded_run (respond 500 "boom") 0).2)).
Proof.
  apply (body_is_last_write_without_stores (respond 500 "boom") get_root (httptest.world 0)
           (recorded_run (respond 500 "boom") 0).1.2 (recorded_run (respond 500 "boom") 0).2).
  - apply no_Poke_NewBuf; intros b. apply no_Poke_CallWriteHeader.
    apply no_Poke_CallWrite; intros n err. apply no_Poke_Done.
  - vm_compute; reflexivity.
  - vm_compute; discriminate.
  - vm_compute; discriminate.
Defined.

(** ** The mock user model *)

(** X7.  Whoever the mock lets in is a user it knows: the id returned by
    a successful [Authenticate] is one [Exists] confirms, and [Get]
    returns the user with that id and with the e-mail that was used. *)
Theorem authenticated_user_exists (email password : string) (id t : Z) :
  mocks.Authenticate email password = (id, None) →
  mocks.Exists id = (true, None)
  ∧ ∃ u : models.User,
      mocks.Get t id = (Some u, None)
      ∧ models.ID u = id ∧ models.Email u = email.
Proof.
  unfold mocks.Authenticate.
  destruct (bool_decide_reflect (email = "alice@example.com")) as [->|];
    destruct (bool_decide_reflect (password = "pa$$word")) as [->|];
    simpl; intros [= <-].
  split; [done|]. by eexists.
Qed.

Lemma authenticated_user_exists_witness :
  mocks.Exists 1 = (true, None)
  ∧ ∃ u : models.User,
      mocks.Get 42 1 = (Some u, None)
      ∧ models.ID u = 1 ∧ models.Email u = "alice@example.com".
Proof.
  apply (authenticated_user_exists "alice@example.com" "pa$$word" 1 42). reflexivity.
Defined.

(** X8.  [Get] and [Exists] agree on every id: [Get] returns a user, with
    the id asked for, exactly when [Exists] says yes, and fails with
    [ErrNoRecord] exactly when it says no; [Exists] itself never fails. *)
Theorem Get_agrees_with_Exists (t id : Z) :
  (mocks.Exists id).2 = None
  ∧ ((mocks.Exists id).1 = true ↔
       ∃ u, mocks.Get t id = (Some u, None) ∧ models.ID u = id)
  ∧ ((mocks.Exists id).1 = false ↔
       mocks.Get t id = (None, Some models.ErrNoRecord)).
Proof.
  unfold mocks.Get.
  destruct (bool_decide_reflect (id = 1)) as [->|Hne].
  - split; [done|]. split; split; try done.
    + intros _. by eexists.
  - assert (mocks.Exists id = (false, None)) as ->.
    { unfold mocks.Exists. destruct id as [|[]|]; done. }
    split; [done|]. split; split; try done.
    intros (u & [=] & _).
Qed.

(** X9.  The one address [Insert] refuses belongs to nobody who can log
    in: when [Insert] fails, it fails with [ErrDuplicateEmail], whatever
    the name and password, and [Authenticate] rejects that address with
    every password. *)
Theorem refused_email_cannot_log_in (name email password : string) (err : models.error) :
  mocks.Insert name email password = Some err →
  err = models.ErrDuplicateEmail
  ∧ (∀ name' password', mocks.Insert name' email password' = Some models.ErrDuplicateEmail)
  ∧ ∀ password', mocks.Authenticate email password'
                   = (0, Some models.ErrInvalidCredentials).
Proof.
  unfold mocks.Insert.
  destruct (bool_decide_reflect (email = "dupe@example.com")) as [->|]; [|done].
  intros [= <-]. by repeat split.
Qed.

Lemma refused_email_cannot_log_in_witness :
  models.ErrDuplicateEmail = models.ErrDuplicateEmail
  ∧ (∀ name' password',
       mocks.Insert name' "dupe@example.com" password' = Some models.ErrDuplicateEmail)
  ∧ ∀ password', mocks.Authenticate "dupe@example.com" password'
                   = (0, Some models.ErrInvalidCredentials).
Proof.
  apply (refused_email_cannot_log_in "Bob" "dupe@example.com" "secret"). reflexivity.
Defined.

(** ** main and openDB *)

(** X10.  [openDB] returns a handle or an error, never both and never
    neither: the handle [sql.Open] gave when both it and [Ping] succeed,
    otherwise the error of the call that failed, unchanged.  It opens with
    the driver mysql and the DSN it was given, pings only what it opened,
    and registers no deferred call. *)
Theorem openDB_handle_or_error (env : web.Env) (dsn : string) (s : web.frame) :
  ∃ (db : option nat) (err : option string) (s' : web.frame),
    web.openDB env dsn s = (web.Next (db, err), s')
    ∧ (is_Some db ↔ err = None)
    ∧ (∀ d, db = Some d ↔ web.sql_Open env "mysql" dsn = inl d ∧ web.db_Ping env d = None)
    ∧ (∀ e, err = Some e ↔
         web.sql_Open env "mysql" dsn = inr e
         ∨ ∃ d, web.sql_Open env "mysql" dsn = inl d ∧ web.db_Ping env d = Some e)
    ∧ web.deferred s' = web.deferred s
    ∧ web.done_ s' = web.done_ s ++
        web.SqlOpen "mysql" dsn ::
        match web.sql_Open env "mysql" dsn with
        | inl d => [web.Ping d]
        | inr _ => []
        end.
Proof.
  unfold web.openDB, mbind, web.Proc_bind, web.bind, web.perform, mret, web.Proc_ret, web.ret.
  simpl. destruct (web.sql_Open env "mysql" dsn) as [d|e] eqn:Hopen; simpl.
  - destruct (web.db_Ping env d) as [e|] eqn:Hping; simpl.
    + eexists None, (Some e), _. split; [done|].
      split; [split; [by intros [? [=]]|done]|].
      split; [intros d'; split; [done|]; intros [[= <-] Hp]; congruence|].
      split; [|split; [done|by rewrite <- app_assoc]].
      intros e'; split.
      * intros [= <-]. right. by exists d.
      * intros [[=]|(d' & [= <-] & Hp)]. congruence.
    + eexists (Some d), None, _. split; [done|].
      split; [done|].
      split; [intros d'; split; [by intros [= <-]|by intros [[= <-] _]]|].
      split; [|split; [done|by rewrite <- app_assoc]].
      intros e'; split; [done|].
      intros [[=]|(d' & [= <-] & Hp)]. congruence.
  - eexists None, (Some e), _. split; [done|].
    split; [split; [by intros [? [=]]|done]|].
    split; [intros d'; split; [done|by intros [[=] _]]|].
    split; [|done].
    intros e'; split.
    + intros [= <-]. by left.
    + by intros [[= <-]|(d & [=] & _)].
Qed.

(** X11.  The deferred [db.Close()] never runs and main never returns:
    once the flags are parsed every path ends in [errorLog.Fatal], so the
    process leaves with status 1 and no [Close] among its effects. *)
Theorem main_never_closes_the_database (env : web.Env) :
  forallb (λ e, negb (web.is_Close e)) (web.run (web.main env)).1 = true
  ∧ (∀ a s d, web.flag_Parse env = web.Flags a s d → (web.run (web.main env)).2 = 1)
  ∧ (∀ code, web.flag_Parse env = web.Usage code → (web.run (web.main env)).2 = code).
Proof.
  unfold web.run, web.main, web.openDB, web.errorLog_Fatal, web.infoLog_Printf,
    mbind, web.Proc_bind, web.bind, web.perform, web.defer, web.os_Exit,
    mret, web.Proc_ret, web.ret.
  simpl. destruct (web.flag_Parse env) as [a s d|code]; simpl.
  - destruct (web.sql_Open env _ _) as [db|e]; simpl.
    + destruct (web.db_Ping env db) as [e|]; simpl.
      * by repeat split.
      * destruct (web.newTemplateCache env); simpl; by repeat split.
    + by repeat split.
  - repeat split; [done|]. by intros code' [= ->].
Qed.

(** Going through the effects of a run for a call of the listener. *)
Ltac find_listen Hin :=
  repeat (apply elem_of_cons in Hin as [Hin|Hin];
          [first [discriminate Hin | by injection Hin as -> -> ->]|]);
  by apply elem_of_nil in Hin.

(** X12.  The server is started exactly when the flags parse, the
    database opens and answers the ping, and the templates load; and it
    is only ever started on the address of the -addr flag, [:4000] when
    the flag is absent, with the certificate and key under ./tls. *)
Theorem main_serves_iff_all_ready (env : web.Env) :
  (existsb web.is_Listen (web.run (web.main env)).1 = true ↔
     ∃ a s d db,
       web.flag_Parse env = web.Flags a s d
       ∧ web.sql_Open env "mysql" (default "web:pass@/snippetbox?parseTime=true" d) = inl db
       ∧ web.db_Ping env db = None
       ∧ web.newTemplateCache env = None)
  ∧ ∀ a s d addr certFile keyFile,
      web.flag_Parse env = web.Flags a s d →
      web.ListenAndServeTLS addr certFile keyFile ∈ (web.run (web.main env)).1 →
      addr = default ":4000" a
      ∧ certFile = "./tls/cert.pem" ∧ keyFile = "./tls/key.pem".
Proof.
  unfold web.run, web.main, web.openDB, web.errorLog_Fatal, web.infoLog_Printf,
    mbind, web.Proc_bind, web.bind, web.perform, web.defer, web.os_Exit,
    mret, web.Proc_ret, web.ret.
  simpl. destruct (web.flag_Parse env) as [a s d|code]; simpl.
  - destruct (web.sql_Open env _ _) as [db|e] eqn:Hopen; simpl.
    + destruct (web.db_Ping env db) as [e|] eqn:Hping; simpl.
      * split.
        -- split; [done|]. intros (? & ? & ? & db' & [= <- <- <-] & Ho & Hp & _).
           rewrite Hopen in Ho. injection Ho as <-. by rewrite Hping in Hp.
        -- intros ? ? ? ? ? ? _ Hin.
           find_listen Hin.
      * destruct (web.newTemplateCache env) eqn:Htpl; simpl.
        -- split.
           ++ split; [done|]. by intros (? & ? & ? & ? & _ & _ & _ & [=]).
           ++ intros ? ? ? ? ? ? _ Hin.
           find_listen Hin.
        -- split.
           ++ split; [|done]. intros _. by exists a, s, d, db.
           ++ intros ? ? ? ? ? ? [= <- <- <-] Hin.
              find_listen Hin.
    + split.
      * split; [done|]. intros (? & ? & ? & db' & [= <- <- <-] & Ho & _).
        by rewrite Hopen in Ho.
      * intros ? ? ? ? ? ? _ Hin.
           find_listen Hin.
  - split.
    + split; [done|]. by intros (? & ? & ? & ? & [=] & _).
    + intros ? ? ? ? ? ? [=].
Qed.

(** ** The routes *)

Lemma TrimPrefix_opt_Some (prefix : string) : ∀ s r,
  router.TrimPrefix_opt prefix s = Some r ↔ s = prefix +:+ r.
Proof.
  induction prefix as [|c prefix IH]; intros s r; simpl.
  - change ("" +:+ r) with r. split; congruence.
  - change (String c prefix +:+ r) with (String c (prefix +:+ r)).
    destruct s as [|d s]; [split; discriminate|].
    destruct (Ascii.eqb_spec c d) as [->|Hne].
    + rewrite IH. split; congruence.
    + split; [discriminate|]. intros [= ? _]. congruence.
Qed.

(** A pattern without parameters matches its own text and nothing else. *)
Lemma match_text (lit : string) :
  has_colon lit = false → ∀ path,
  router.match_path router.Text lit path = if bool_decide (path = lit) then Some [] else None.
Proof.
  induction lit as [|c lit IH]; intros Hc path; simpl.
  - by destruct path.
  - simpl in Hc. apply orb_false_elim in Hc as [Hc Hlit]. rewrite Hc.
    destruct path as [|d path]; [done|].
    destruct (Ascii.eqb_spec c d) as [->|Hne].
    + rewrite (IH Hlit). do 2 case_bool_decide; congruence.
    + rewrite bool_decide_eq_false_2; [done|congruence].
Qed.

(** Plain text at the front of a pattern is taken off the path. *)
Lemma match_text_then (lit pat : string) :
  has_colon lit = false → ∀ path,
  router.match_path router.Text (lit +:+ pat) path
    = router.TrimPrefix_opt lit path ≫= router.match_path router.Text pat.
Proof.
  induction lit as [|c lit IH]; intros Hc path; [done|].
  simpl in Hc. apply orb_false_elim in Hc as [Hc Hlit].
  change (String c lit +:+ pat) with (String c (lit +:+ pat)).
  cbn [router.match_path router.TrimPrefix_opt]. rewrite Hc.
  destruct path as [|d path]; [done|].
  destruct (Ascii.eqb c d); [by apply IH|done].
Qed.

Lemma until_slash_spec (s : string) :
  s = (router.until_slash s).1 +:+ (router.until_slash s).2
  ∧ router.has_slash (router.until_slash s).1 = false.
Proof.
  induction s as [|c s [IH1 IH2]]; [done|]. simpl.
  destruct (Ascii.eqb c "/") eqn:Hc; simpl; [done|].
  rewrite Hc. split; [|done].
  change (String c ?a +:+ ?b) with (String c (a +:+ b)). by rewrite <- IH1.
Qed.

Lemma until_slash_no_slash (s : string) :
  router.has_slash s = false → router.until_slash s = (s, EmptyString).
Proof.
  induction s as [|c s IH]; [done|]. simpl. intros Hs.
  apply orb_false_elim in Hs as [Hc Hs]. rewrite Hc. by rewrite (IH Hs).
Qed.

Lemma append_String (c : ascii) (s r : string) : String c s +:+ r = String c (s +:+ r).
Proof. reflexivity. Qed.

Lemma append_empty_l (r : string) : "" +:+ r = r.
Proof. reflexivity. Qed.

Lemma append_empty_r (s : string) : s +:+ "" = s.
Proof.
  induction s as [|c s IH]; [done|].
  change (String c s +:+ "") with (String c (s +:+ "")). by rewrite IH.
Qed.

(** What [lookup] finds is a registration for the method whose pattern
    matches the path. *)
Lemma lookup_Some rs method path h ps :
  router.lookup rs method path = Some (h, ps) →
  ∃ pat, (method, pat, h) ∈ rs ∧ router.match_path router.Text pat path = Some ps.
Proof.
  induction rs as [|[[m pat] h'] rs IH]; [done|]. simpl.
  case_bool_decide as Hm.
  - destruct (router.match_path router.Text pat path) as [ps'|] eqn:Hmatch.
    + intros [= <- <-]. subst m. exists pat. split; [left|done].
    + intros Hrest. destruct (IH Hrest) as (pat' & Hin & Hmatch').
      exists pat'. split; [by right|done].
  - intros Hrest. destruct (IH Hrest) as (pat' & Hin & Hmatch').
    exists pat'. split; [by right|done].
Qed.

(** X13.  No request reaches the file server.  The only registration for
    it has the pattern [/static/], which matches that path alone, and
    [StripPrefix] is given a prefix that this path does not start with, so
    the request is answered 404; a path below [/static/] matches no
    registration at all. *)
Theorem file_server_is_never_reached (method path : string) :
  (∀ p, router.routes method path ≠ router.FileServer p)
  ∧ (∀ ps, router.lookup router.table method path = Some (router.fileServer_stripped, ps) →
       method = "GET" ∧ path = "/static/"
       ∧ router.routes method path = router.StripPrefixNotFound)
  ∧ ∀ rest, rest ≠ "" → router.routes "GET" ("/static/" +:+ rest) = router.NotRouted.
Proof.
  assert (Hstatic : ∀ ps,
    router.lookup router.table method path = Some (router.fileServer_stripped, ps) →
    method = "GET" ∧ path = "/static/"
    ∧ router.routes method path = router.StripPrefixNotFound).
  { intros ps Hl. pose proof Hl as Hl'.
    apply lookup_Some in Hl as (pat & Hin & Hmatch).
    unfold router.table in Hin.
    repeat (apply elem_of_cons in Hin as [Hin|Hin]; [try discriminate Hin|]);
      [|by apply elem_of_nil in Hin].
    injection Hin as -> ->.
    rewrite match_text in Hmatch by done. case_bool_decide; [subst path|done].
    by repeat split. }
  split; [|split; [exact Hstatic|]].
  - intros p. unfold router.routes.
    destruct (router.lookup router.table method path) as [[h ps]|] eqn:Hl; [|done].
    destruct h; try done.
    destruct (Hstatic ps eq_refl) as (_ & -> & _). vm_compute. discriminate.
  - intros rest Hrest. destruct rest as [|c rest]; [done|].
    unfold router.routes, router.table. cbn [router.lookup].
    rewrite !bool_decide_eq_true_2 by done.
    rewrite (match_text "/static/"), (match_text "/"), (match_text "/snippet/create")
      by done.
    change "/snippet/view/:id" with ("/snippet/view/" +:+ ":id").
    rewrite match_text_then by done.
    rewrite !append_String, append_empty_l.
    by rewrite !bool_decide_eq_false_2 by discriminate.
Qed.

(** X14.  [snippetView] is given exactly the GET requests for
    [/snippet/view/] followed by one segment that is not empty and has no
    slash, and it is given that segment, whatever it is made of, as the
    parameter id. *)
Theorem snippetView_gets_one_segment (method path : string) (ps : list (string * string)) :
  router.routes method path = router.Handler_ router.snippetView ps ↔
    method = "GET"
    ∧ ∃ id, path = "/snippet/view/" +:+ id
            ∧ id ≠ "" ∧ router.has_slash id = false ∧ ps = [("id", id)].
Proof.
  split.
  - unfold router.routes.
    destruct (router.lookup router.table method path) as [[h ps']|] eqn:Hl; [|done].
    destruct h; try done.
    { unfold router.StripPrefix. case_bool_decide; [done|]. by case_decide. }
    intros [= <-].
    apply lookup_Some in Hl as (pat & Hin & Hmatch).
    unfold router.table in Hin.
    repeat (apply elem_of_cons in Hin as [Hin|Hin]; [try discriminate Hin|]);
      [|by apply elem_of_nil in Hin].
    injection Hin as -> ->. split; [done|].
    change "/snippet/view/:id" with ("/snippet/view/" +:+ ":id") in Hmatch.
    rewrite match_text_then in Hmatch by done.
    destruct (router.TrimPrefix_opt "/snippet/view/" path) as [rest|] eqn:Hpre; [|done].
    apply TrimPrefix_opt_Some in Hpre. simpl in Hmatch.
    case_bool_decide as Hid; [done|].
    destruct (until_slash_spec rest) as [Hrest Hslash].
    revert Hmatch Hrest.
    destruct (router.until_slash rest).2 as [|c tail]; intros Hmatch Hrest; [|done].
    injection Hmatch as <-. rewrite append_empty_r in Hrest.
    exists (router.until_slash rest).1.
    split; [by rewrite <- Hrest|]. by repeat split.
  - intros (-> & id & -> & Hid & Hslash & ->).
    unfold router.routes, router.table. cbn [router.lookup].
    rewrite !bool_decide_eq_true_2 by done.
    rewrite (match_text "/static/"), (match_text "/") by done.
    change "/snippet/view/:id" with ("/snippet/view/" +:+ ":id").
    rewrite match_text_then by done.
    assert (router.TrimPrefix_opt "/snippet/view/" ("/snippet/view/" +:+ id) = Some id) as ->
      by by apply TrimPrefix_opt_Some.
    rewrite !append_String, append_empty_l.
    rewrite !bool_decide_eq_false_2 by discriminate.
    simpl. rewrite (until_slash_no_slash id Hslash). simpl.
    by rewrite bool_decide_eq_false_2.
Qed.

(** A numeric id and one that is not a number both reach the handler. *)
Lemma snippetView_gets_one_segment_witness :
  router.routes "GET" "/snippet/view/12" = router.Handler_ router.snippetView [("id", "12")]
  ∧ router.routes "GET" "/snippet/view/abc" = router.Handler_ router.snippetView [("id", "abc")].
Proof.
  split.
  - apply (snippetView_gets_one_segment "GET" "/snippet/view/12" [("id", "12")]).
    split; [reflexivity|]. exists "12". repeat split; try reflexivity. discriminate.
  - apply (snippetView_gets_one_segment "GET" "/snippet/view/abc" [("id", "abc")]).
    split; [reflexivity|]. exists "abc". repeat split; try reflexivity. discriminate.
Defined.

(** X15.  No request matches two registrations: whatever the method and
    path, at most one entry of the table applies, so the order in which
    routes() registers them does not matter. *)
Theorem routes_do_not_overlap (method path pat1 pat2 : string) (h1 h2 : router.target)
    (ps1 ps2 : list (string * string)) :
  (method, pat1, h1) ∈ router.table →
  (method, pat2, h2) ∈ router.table →
  router.match_path router.Text pat1 path = Some ps1 →
  router.match_path router.Text pat2 path = Some ps2 →
  pat1 = pat2 ∧ h1 = h2 ∧ ps1 = ps2.
Proof.
  unfold router.table. intros Hin1 Hin2 Hm1 Hm2.
  repeat (apply elem_of_cons in Hin1 as [Hin1|Hin1]; [|]);
    try (by apply elem_of_nil in Hin1);
    injection Hin1 as -> -> ->;
    (repeat (apply elem_of_cons in Hin2 as [Hin2|Hin2]; [|]);
     try (by apply elem_of_nil in Hin2);
     try discriminate Hin2;
     injection Hin2 as -> ->);
    try (rewrite Hm1 in Hm2; by injection Hm2 as ->);
    try (rewrite match_text in Hm1 by done; case_bool_decide; [subst path|done];
         by vm_compute in Hm2);
    try (rewrite match_text in Hm2 by done; case_bool_decide; [subst path|done];
         by vm_compute in Hm1).
Qed.

Lemma routes_do_not_overlap_witness :
  "/snippet/view/:id" = "/snippet/view/:id"
  ∧ router.snippetView = router.snippetView
  ∧ [("id", "7")] = [("id", "7")].
Proof.
  apply (routes_do_not_overlap "GET" "/snippet/view/7"
           "/snippet/view/:id" "/snippet/view/:id" router.snippetView router.snippetView
           [("id", "7")] [("id", "7")]).
  - unfold router.table. do 2 right. left.
  - unfold router.table. do 2 right. left.
  - reflexivity.
  - reflexivity.
Defined.

(** The stylesheet is not served, and [/static/] itself gets a 404. *)
Lemma file_server_is_never_reached_witness :
  router.routes "GET" "/static/css/main.css" = router.NotRouted
  ∧ router.routes "GET" "/static/" = router.StripPrefixNotFound.
Proof.
  destruct (file_server_is_never_reached "GET" "/static/") as (_ & Hstatic & Hbelow).
  split.
  - apply (Hbelow "css/main.css"). discriminate.
  - apply (Hstatic []). reflexivity.
Defined.

(** With everything ready the process still ends with status 1 and has
    closed nothing. *)
Lemma main_never_closes_the_database_witness :
  forallb (λ e, negb (web.is_Close e)) (web.run (web.main ready_env)).1 = true
  ∧ (web.run (web.main ready_env)).2 = 1.
Proof.
  destruct (main_never_closes_the_database ready_env) as (Hclose & Hexit & _).
  split; [exact Hclose|]. apply (Hexit (Some ":8443") None None). reflexivity.
Defined.

(** The server starts in the first outside, on the flag's address, and
    not in the second. *)
Lemma main_serves_iff_all_ready_witness :
  existsb web.is_Listen (web.run (web.main ready_env)).1 = true
  ∧ existsb web.is_Listen (web.run (web.main unreachable_db_env)).1 ≠ true
  ∧ web.ListenAndServeTLS ":8443" "./tls/cert.pem" "./tls/key.pem"
      ∈ (web.run (web.main ready_env)).1.
Proof.
  split; [|split].
  - apply (main_serves_iff_all_ready ready_env).
    by exists (Some ":8443"), None, None, 7%nat.
  - intros Hstarted.
    apply (main_serves_iff_all_ready unreachable_db_env) in Hstarted
      as (a & s & d & db & _ & _ & Hping & _).
    discriminate Hping.
  - vm_compute. do 5 right. left.
Defined.

(** ** Handlers that recover or look behind the interface *)

(** A handler with a deferred recover survives the recorder's panic, goes
    on to answer 500 and is logged as an error. *)
Example guarded_handler_is_logged :
  ∃ r : zerolog.Event,
    HttpLogger (guarded_set_header "Content-Type" "text/plain") get_root (httptest.world 0)
      = (Returned tt,
         mkWorld (httptest.mkRecorder 500 0 [] true) (mkHeap [] [∅]) 0 [r])
    ∧ (recorded_run (guarded_set_header "Content-Type" "text/plain") 0).2
        = [CHeader; CWriteHeader 500]
    ∧ zerolog.level r = zerolog.ErrorLevel
    ∧ zerolog.field "status_code" r = Some (zerolog.VInt 500).
Proof. eexists. split; [vm_compute; reflexivity|]. by repeat split. Qed.

(** A handler that asserts its writer to [http.Flusher] finds one in the
    underlying writer and none in the recorder: it answers 200 directly
    and 501 through [HttpLogger], without a single [Header] call. *)
Example type_assertion_sees_the_recorder :
  (serve (needs_Flusher get_root) (httptest.world 0)).2 = [CWriteHeader 200]
  ∧ httptest.Code (writer (serve (needs_Flusher get_root) (httptest.world 0)).1.2) = 200
  ∧ httptest.Code (writer (HttpLogger needs_Flusher get_root (httptest.world 0)).2) = 501.
Proof. by repeat split. Qed.
